(** * The weather service: a shallow embedding of [weather/data.go]

    The Go package [weather] fetches the current conditions for a pair of
    coordinates from OpenWeatherMap and re-serves a reshaped summary.  This
    development embeds the package as Rocq functions:

    - a JSON document decoded into [map[string]interface{}] is a finite map
      from strings to dynamically typed values ([value]);
    - [float64] is Rocq's primitive binary64 [float], so comparisons have
      their IEEE 754 meaning, NaN included;
    - a failed type assertion or an index out of range is a [Panic], threaded
      through the extraction helpers by the [exec] monad;
    - a Go result pair (a [WeatherData] pointer and an [error]) is a pair of
      options, so that a partial result would be representable if the code
      produced one;
    - the goroutine, the two channels and the [select] of
      [getWeatherWithContext] are resolved on a clock counted in nanoseconds,
      as [time.Duration] is; when two cases are ready at the same instant every
      case [select] may take is listed.

    The parts of Go's standard library the package calls
    ([strconv.ParseFloat], the [%v] and [%.6f] verbs of [fmt], the conversion
    [int(float64)], [time.Unix], and of [encoding/json] the one way in which
    encoding a [WeatherData] fails, a [time.Time] whose year is outside
    0..9999) are modelled in the modules [strconv], [fmt], [time] and [http]
    below.  The process is taken to run in UTC, which is where
    [time.Local] enters the year of an instant.  Output written by
    [log.Printf] is not modelled. *)

From Stdlib Require Import ZArith Floats Ascii String List Bool Lia Reals Lra.
From stdpp Require Import base strings pretty gmap.

Set Warnings "-inexact-float,-register-all,-deprecated".

Local Open Scope string_scope.
Local Open Scope Z_scope.

(** ** Dynamic values, panics and the result of running Go code *)

(** The dynamic types [encoding/json] stores in an [interface{}]. *)
Inductive kind :=
| KNil | KBool | KFloat64 | KString | KSlice | KMap.

(** A value held by an [interface{}] after [json.Decoder.Decode]. *)
Inductive value :=
| VNil
| VBool (b : bool)
| VNum (f : float)
| VStr (s : string)
| VArr (l : list value)
| VObj (m : gmap string value).

Definition kind_of (v : value) : kind :=
  match v with
  | VNil => KNil
  | VBool _ => KBool
  | VNum _ => KFloat64
  | VStr _ => KString
  | VArr _ => KSlice
  | VObj _ => KMap
  end.

(** Run-time panics the package can raise. *)
Inductive panic :=
| InterfaceConversion (dynamic asserted : kind)
| IndexOutOfRange (index len : Z).

(** Go code either returns or panics. *)
Inductive exec (A : Type) :=
| Return (a : A)
| Panic (p : panic).
Arguments Return {A} a.
Arguments Panic {A} p.

Global Instance exec_ret : MRet exec := @Return.

Global Instance exec_bind : MBind exec := fun A B k c =>
  match c with
  | Return a => k a
  | Panic p => Panic p
  end.

(** [m[key]] on a [map[string]interface{}]: a missing key yields the nil
    interface, as a key bound to JSON [null] does. *)
Definition index (m : gmap string value) (key : string) : value :=
  match m !! key with
  | Some v => v
  | None => VNil
  end.

(** The type assertions [v.(float64)], [v.(string)], [v.([]interface{})] and
    [v.(map[string]interface{})], in their panicking one-result form. *)
Definition assert_float64 (v : value) : exec float :=
  match v with
  | VNum f => Return f
  | _ => Panic (InterfaceConversion (kind_of v) KFloat64)
  end.

Definition assert_string (v : value) : exec string :=
  match v with
  | VStr s => Return s
  | _ => Panic (InterfaceConversion (kind_of v) KString)
  end.

Definition assert_slice (v : value) : exec (list value) :=
  match v with
  | VArr l => Return l
  | _ => Panic (InterfaceConversion (kind_of v) KSlice)
  end.

Definition assert_map (v : value) : exec (gmap string value) :=
  match v with
  | VObj m => Return m
  | _ => Panic (InterfaceConversion (kind_of v) KMap)
  end.

(** [a[0]] on a slice. *)
Definition first (a : list value) : exec value :=
  match a with
  | v :: _ => Return v
  | [] => Panic (IndexOutOfRange 0 0)
  end.

(** ** The conversion [int(f)] of a [float64]

    The fraction is discarded (truncation toward zero).  When the truncated
    value does not fit the 64-bit [int], or [f] is NaN or infinite, the Go
    specification leaves the result to the implementation; the value taken
    here is the one amd64 produces, the minimum [int]. *)

Definition minInt : Z := - 2 ^ 63.
Definition maxInt : Z := 2 ^ 63 - 1.

(** The integer part of a finite [float64], exactly. *)
Definition trunc (f : float) : option Z :=
  match Prim2SF f with
  | S754_zero _ => Some 0
  | S754_finite s m e =>
      let a := if 0 <=? e then Z.shiftl (Zpos m) e else Z.shiftr (Zpos m) (- e) in
      Some (if s then - a else a)
  | S754_infinity _ | S754_nan => None
  end.

Definition float64_to_int (f : float) : Z :=
  match trunc f with
  | Some n => if (minInt <=? n) && (n <=? maxInt) then n else minInt
  | None => minInt
  end.

(** ** Package [strconv]: numbers to text and back *)

Module strconv.

(** [strconv.FormatInt(i, 10)]: a minus sign for negative numbers, no
    leading zeros. *)
Definition FormatInt (i : Z) : string := pretty i.

Fixpoint zeros (n : nat) : string :=
  match n with
  | O => ""
  | S n' => String "0" (zeros n')
  end.

Definition code (c : ascii) : Z := Z.of_N (N_of_ascii c).

Definition digitChar (d : Z) : ascii := ascii_of_N (Z.to_N (48 + d)).

(** The [n] low decimal digits of [x], most significant first, before [acc]. *)
Fixpoint lowDigits (n : nat) (x : Z) (acc : string) : string :=
  match n with
  | O => acc
  | S n' => lowDigits n' (x / 10) (String (digitChar (x mod 10)) acc)
  end.

(** *** Shortest formatting, [FormatFloat(f, 'g', -1, 64)]

    A finite nonzero [float64] is [mant * 2^exp].  Every real between
    [lower] and [upper], the midpoints to the neighbouring floats, rounds to
    it (the bounds included when [mant] is even).  [roundShortest] picks the
    decimal [d_digits * 10^d_exp] with the largest [d_exp] that lies between
    the bounds, and among the two candidates around the exact value the
    nearer, ties to even.  Quantities are kept in quarters of the unit in the
    last place: [n * 2^(exp-2) / 10^k] is the fraction
    [scaled n (exp-2) k / unit (exp-2) k]. *)

Definition scaled (n e2 k : Z) : Z := n * 2 ^ Z.max e2 0 * 10 ^ Z.max (- k) 0.
Definition unit (e2 k : Z) : Z := 2 ^ Z.max (- e2) 0 * 10 ^ Z.max k 0.

Record decimal := { d_digits : Z; d_exp : Z }.

Definition mantbits : Z := 52.
(** Exponent of the subnormal numbers, [minexp - mantbits] in Go's terms. *)
Definition minexp : Z := -1074.

Definition within (inclusive : bool) (a b : Z) : bool :=
  if inclusive then a <=? b else a <? b.

(** The midpoints to the next float below and above [mant * 2^exp], in
    quarters of [2^exp].  Below a power of two the floats are twice as
    dense, unless they are subnormal. *)
Definition lowerBound (mant exp : Z) : Z :=
  if (mant =? 2 ^ mantbits) && (minexp <? exp) then 4 * mant - 1 else 4 * mant - 2.

Definition upperBound (mant : Z) : Z := 4 * mant + 2.

(** The walk over the decimal exponents [k], [k - 1], ...: at each, [c] and
    [c + 1] are the multiples of [10^k] around the exact value.  It ends at
    the latest where the exact value is itself a multiple of [10^k], which
    [fuel] is chosen to reach. *)
Fixpoint roundShortest_from (fuel : nat) (mant exp k : Z) : decimal :=
  let e2 := exp - 2 in
  let mid := 4 * mant in
  let upper := upperBound mant in
  let lower := lowerBound mant exp in
  let inclusive := Z.even mant in
  let b := unit e2 k in
  let c := scaled mid e2 k / b in
  let r := scaled mid e2 k - c * b in
  let okdown := within inclusive (scaled lower e2 k) (c * b) in
  let okup := within inclusive ((c + 1) * b) (scaled upper e2 k) in
  let roundUp := (b <? 2 * r) || ((b =? 2 * r) && Z.odd c) in
  if okdown && okup then {| d_digits := if roundUp then c + 1 else c; d_exp := k |}
  else if okdown then {| d_digits := c; d_exp := k |}
  else if okup then {| d_digits := c + 1; d_exp := k |}
  else match fuel with
       | O => {| d_digits := c; d_exp := k |}
       | S fuel' => roundShortest_from fuel' mant exp (k - 1)
       end.

(** The walk starts at a power of ten above [upper] ([upper] is below
    [2^(log2 mant + 1 + exp)] and [log10 2 < 0.30103]) and may go down to
    [min (exp - 2) 0], where [mant * 2^exp] is a multiple of [10^k]. *)
Definition roundShortest (mant exp : Z) : decimal :=
  let start := (Z.log2 mant + 1 + exp) * 30103 / 100000 + 2 in
  roundShortest_from (Z.to_nat (start - Z.min (exp - 2) 0)) mant exp start.

(** The decimal [d] lies between the two midpoints around [mant * 2^exp]
    (on one of them only if [mant] is even): no other [float64] is as near
    to it. *)
Definition identifies (mant exp : Z) (d : decimal) : Prop :=
  within (Z.even mant) (scaled (lowerBound mant exp) (exp - 2) (d_exp d))
    (d_digits d * unit (exp - 2) (d_exp d)) = true /\
  within (Z.even mant) (d_digits d * unit (exp - 2) (d_exp d))
    (scaled (upperBound mant) (exp - 2) (d_exp d)) = true.

(** [%e] layout: [d.ddddde±dd]. *)
Definition fmtE (neg : bool) (ds : string) (dp : Z) : string :=
  let exp := dp - 1 in
  (if neg then "-" else "") ++
  substring 0 1 ds ++
  (if (1 <? String.length ds)%nat
   then "." ++ substring 1 (String.length ds - 1) ds else "") ++
  "e" ++ (if exp <? 0 then "-" else "+") ++
  (if Z.abs exp <? 10 then "0" else "") ++ FormatInt (Z.abs exp).

(** [%f] layout with as many fraction digits as [ds] has after the point. *)
Definition fmtF (neg : bool) (ds : string) (dp : Z) : string :=
  let nd := Z.of_nat (String.length ds) in
  (if neg then "-" else "") ++
  (if 0 <? dp
   then substring 0 (Z.to_nat dp) ds ++ zeros (Z.to_nat (dp - nd))
   else "0") ++
  (if dp <? nd
   then "." ++ zeros (Z.to_nat (- dp)) ++ substring (Z.to_nat dp) (String.length ds) ds
   else "").

(** [%e] is used when the decimal exponent is below [-4] or at least [6]
    (the precision [strconv] assumes for this decision in shortest mode). *)
Definition fmtG (neg : bool) (d : decimal) : string :=
  let ds := FormatInt (d_digits d) in
  let dp := Z.of_nat (String.length ds) + d_exp d in
  let exp := dp - 1 in
  if (exp <? -4) || (6 <=? exp) then fmtE neg ds dp else fmtF neg ds dp.

Definition FormatFloat_g (f : float) : string :=
  match Prim2SF f with
  | S754_nan => "NaN"
  | S754_infinity s => if s then "-Inf" else "+Inf"
  | S754_zero s => if s then "-0" else "0"
  | S754_finite s m e => fmtG s (roundShortest (Zpos m) e)
  end.

(** *** Fixed formatting with six decimals, [FormatFloat(f, 'f', 6, 64)]

    The exact binary value is rounded to a multiple of [10^-6], ties to
    even, and printed with its sign, its integer part and six fraction
    digits. *)

Definition round_half_even (n d : Z) : Z :=
  let q := n / d in
  let r := n - q * d in
  if (d <? 2 * r) || ((d =? 2 * r) && Z.odd q) then q + 1 else q.

Definition fixed6 (neg : bool) (n : Z) : string :=
  (if neg then "-" else "") ++ FormatInt (n / 1000000) ++ "." ++ lowDigits 6 (n mod 1000000) "".

(** [f * 10^6] rounded to an integer, for finite [f = ± m * 2^e]. *)
Definition micro (m : positive) (e : Z) : Z :=
  round_half_even (Zpos m * 1000000 * 2 ^ Z.max e 0) (2 ^ Z.max (- e) 0).

Definition FormatFloat_f6 (f : float) : string :=
  match Prim2SF f with
  | S754_nan => "NaN"
  | S754_infinity s => if s then "-Inf" else "+Inf"
  | S754_zero s => fixed6 s 0
  | S754_finite s m e => fixed6 s (micro m e)
  end.

(** *** [ParseFloat(s, 64)]

    The text is one of the special values ([inf], [infinity], [nan],
    letter case ignored, a sign allowed before the infinities), or a decimal
    or hexadecimal floating-point literal in Go's syntax.  The number read is
    rounded to the nearest [float64], ties to even; a number that rounds to
    an infinity is a range error, any other text a syntax error. *)

Inductive NumError := ErrSyntax | ErrRange.

(** [c | ('x' - 'X')]: an ASCII letter in lower case. *)
Definition lower (c : ascii) : ascii := ascii_of_N (N.lor (N_of_ascii c) 32).

Definition is_digit (c : ascii) : bool := (48 <=? code c) && (code c <=? 57).

Definition is_hexletter (c : ascii) : bool :=
  (97 <=? code (lower c)) && (code (lower c) <=? 102).

Fixpoint commonPrefixLenIgnoreCase (s prefix : string) : nat :=
  match s, prefix with
  | String c s', String p prefix' =>
      let c' := if (65 <=? code c) && (code c <=? 90) then lower c else c in
      if Ascii.eqb c' p then S (commonPrefixLenIgnoreCase s' prefix') else O
  | _, _ => O
  end.

(** A special value at the start of [s] and the number of bytes it takes. *)
Definition special (s : string) : option (float * nat) :=
  let inf (neg : bool) (nsign : nat) (t : string) :=
    let n := commonPrefixLenIgnoreCase t "infinity" in
    let n := if (3 <? n)%nat && (n <? 8)%nat then 3%nat else n in
    if (n =? 3)%nat || (n =? 8)%nat
    then Some (if neg then neg_infinity else infinity, (nsign + n)%nat)
    else None in
  match s with
  | String "+" t => inf false 1%nat t
  | String "-" t => inf true 1%nat t
  | String "i" _ | String "I" _ => inf false 0%nat s
  | String "n" _ | String "N" _ =>
      if (commonPrefixLenIgnoreCase s "nan" =? 3)%nat then Some (nan, 3%nat) else None
  | _ => None
  end.

(** The state of [readFloat]'s loop over the mantissa; every digit is kept,
    so the value read is exact. *)
Record scan := {
  mantissa : Z;
  nd : Z;
  dp : Z;
  sawdot : bool;
  sawdigits : bool;
  underscores : bool
}.

Fixpoint readMantissa (hex : bool) (s : string) (st : scan) : scan * string :=
  match s with
  | EmptyString => (st, s)
  | String c s' =>
      if Ascii.eqb c "_" then
        readMantissa hex s'
          {| mantissa := mantissa st; nd := nd st; dp := dp st; sawdot := sawdot st;
             sawdigits := sawdigits st; underscores := true |}
      else if Ascii.eqb c "." then
        if sawdot st then (st, s)
        else readMantissa hex s'
          {| mantissa := mantissa st; nd := nd st; dp := nd st; sawdot := true;
             sawdigits := sawdigits st; underscores := underscores st |}
      else if is_digit c then
        if Ascii.eqb c "0" && (nd st =? 0) then
          readMantissa hex s'
            {| mantissa := mantissa st; nd := nd st; dp := dp st - 1; sawdot := sawdot st;
               sawdigits := true; underscores := underscores st |}
        else
          readMantissa hex s'
            {| mantissa := mantissa st * (if hex then 16 else 10) + (code c - 48);
               nd := nd st + 1; dp := dp st; sawdot := sawdot st;
               sawdigits := true; underscores := underscores st |}
      else if hex && is_hexletter c then
        readMantissa hex s'
          {| mantissa := mantissa st * 16 + (code (lower c) - 97 + 10);
             nd := nd st + 1; dp := dp st; sawdot := sawdot st;
             sawdigits := true; underscores := underscores st |}
      else (st, s)
  end.

(** The digits of the exponent; past [10000] further digits change nothing. *)
Fixpoint readExponent (s : string) (e : Z) (us : bool) : Z * bool * string :=
  match s with
  | String c s' =>
      if Ascii.eqb c "_" then readExponent s' e true
      else if is_digit c then
        readExponent s' (if e <? 10000 then e * 10 + (code c - 48) else e) us
      else (e, us, s)
  | EmptyString => (e, us, s)
  end.

(** An underscore must stand between two digits, or between a base prefix
    and a digit.  [saw] is the class of the last byte seen. *)
Fixpoint underscoreOK_from (hex : bool) (saw : ascii) (s : string) : bool :=
  match s with
  | EmptyString => negb (Ascii.eqb saw "_")
  | String c s' =>
      if is_digit c || (hex && is_hexletter c) then underscoreOK_from hex "0" s'
      else if Ascii.eqb c "_" then
        if Ascii.eqb saw "0" then underscoreOK_from hex "_" s' else false
      else if Ascii.eqb saw "_" then false
      else underscoreOK_from hex "!" s'
  end.

Definition underscoreOK (s : string) : bool :=
  let s := match s with
           | String "-" t | String "+" t => t
           | _ => s
           end in
  match s with
  | String "0" (String p t) =>
      if Ascii.eqb (lower p) "b" || Ascii.eqb (lower p) "o" || Ascii.eqb (lower p) "x"
      then underscoreOK_from (Ascii.eqb (lower p) "x") "0" t
      else underscoreOK_from false "^" s
  | _ => underscoreOK_from false "^" s
  end.

(** What [readFloat] reads: the number [± p_mant * base^p_exp] ([base] is 2
    after a hexadecimal mantissa, 10 otherwise) and the text left over. *)
Record parsed := {
  p_neg : bool;
  p_mant : Z;
  p_exp : Z;
  p_hex : bool;
  p_rest : string
}.

Definition readFloat (s : string) : option parsed :=
  let '(neg, s1) := match s with
                    | String "+" t => (false, t)
                    | String "-" t => (true, t)
                    | _ => (false, s)
                    end in
  match s with
  | EmptyString => None
  | _ =>
  let '(hex, s2) := match s1 with
                    | String "0" (String x (String c t)) =>
                        if Ascii.eqb (lower x) "x" then (true, String c t) else (false, s1)
                    | _ => (false, s1)
                    end in
  let '(st, s3) := readMantissa hex s2
                     {| mantissa := 0; nd := 0; dp := 0; sawdot := false;
                        sawdigits := false; underscores := false |} in
  if negb (sawdigits st) then None else
  let dp0 := if sawdot st then dp st else nd st in
  let dp1 := if hex then dp0 * 4 else dp0 in
  let ndMant := if hex then nd st * 4 else nd st in
  let expChar : ascii := (if hex then "p" else "e")%char in
  let finish (dp2 : Z) (us : bool) (rest : string) :=
    let consumed := substring 0 (String.length s - String.length rest) s in
    if us && negb (underscoreOK consumed) then None
    else Some {| p_neg := neg; p_mant := mantissa st;
                 p_exp := if mantissa st =? 0 then 0 else dp2 - ndMant;
                 p_hex := hex; p_rest := rest |} in
  match s3 with
  | String c s4 =>
      if Ascii.eqb (lower c) expChar then
        match s4 with
        | EmptyString => None
        | String sg s5 =>
            let '(esign, s6) := if Ascii.eqb sg "+" then (1, s5)
                                else if Ascii.eqb sg "-" then (-1, s5) else (1, s4) in
            match s6 with
            | String d _ =>
                if is_digit d then
                  let '(e, us, rest) := readExponent s6 0 (underscores st) in
                  finish (dp1 + e * esign) us rest
                else None
            | EmptyString => None
            end
        end
      else if hex then None else finish dp1 (underscores st) s3
  | EmptyString => if hex then None else finish dp1 (underscores st) s3
  end
  end.

(** The [float64] nearest to [± num / den], ties to even. *)
Definition nearest (neg : bool) (num den : Z) : spec_float :=
  if num =? 0 then S754_zero neg
  else let '(mz, ez, lz) := SFdiv_core_binary prec emax num 0 den 0 in
       binary_round_aux prec emax neg mz ez lz.

(** The result pair of [ParseFloat]: on a syntax error the number is [0],
    on a range error the infinity of the right sign. *)
Definition ParseFloat (s : string) : float * option NumError :=
  match special s with
  | Some (f, n) =>
      if (n =? String.length s)%nat then (f, None) else (0%float, Some ErrSyntax)
  | None =>
      match readFloat s with
      | None => (0%float, Some ErrSyntax)
      | Some p =>
          let base := if p_hex p then 2 else 10 in
          let v := nearest (p_neg p) (p_mant p * base ^ Z.max (p_exp p) 0)
                     (base ^ Z.max (- p_exp p) 0) in
          if negb (String.length (p_rest p) =? 0)%nat then (0%float, Some ErrSyntax)
          else match v with
               | S754_infinity _ => (SF2Prim v, Some ErrRange)
               | _ => (SF2Prim v, None)
               end
      end
  end.

End strconv.

(** ** Package [fmt]: the verbs the package uses *)

Module fmt.

(** [Sprintf("%v", f)] for a [float64]: [%g] with the shortest precision
    that identifies [f]. *)
Definition v_float64 (f : float) : string := strconv.FormatFloat_g f.

(** [Sprintf("%v", i)] for an [int]. *)
Definition v_int (i : Z) : string := strconv.FormatInt i.

(** [Sprintf("%.6f", f)] for a [float64]. *)
Definition f6_float64 (f : float) : string := strconv.FormatFloat_f6 f.

(** [Fprintln(w, s)]: the text and a newline. *)
Definition ln (s : string) : string := s ++ String (ascii_of_nat 10) "".

End fmt.

(** ** Package [time] *)

Module time.

(** A [Duration] counts nanoseconds. *)
Definition Nanosecond : Z := 1.
Definition Second : Z := 1000000000 * Nanosecond.

Inductive Location := Local | UTC.

(** An instant: seconds and nanoseconds since the Unix epoch, and the
    location it is displayed in. *)
Record Time := { sec : Z; nsec : Z; loc : Location }.

(** [time.Unix(sec, nsec)]: [nsec] outside [0, 1e9) is carried into [sec];
    the result is in the local time zone. *)
Definition Unix (sec nsec : Z) : Time :=
  {| sec := sec + nsec / 1000000000; nsec := nsec mod 1000000000; loc := Local |}.

(** Seconds east of UTC in force in a location at a Unix time.  [Local] is
    the zone of the process, which is taken to run in UTC. *)
Definition offset (l : Location) (unix : Z) : Z :=
  match l with
  | Local => 0
  | UTC => 0
  end.

Definition secondsPerDay : Z := 86400.
Definition daysPer400Years : Z := 365 * 400 + 97.
Definition daysPer100Years : Z := 365 * 100 + 24.
Definition daysPer4Years : Z := 365 * 4 + 1.

(** Years are counted from a year that is 1 modulo 400 and so far back that
    every [int64] second count is after it once reduced modulo [2 ^ 64]. *)
Definition absoluteZeroYear : Z := -292277022399.
Definition unixToInternal : Z :=
  (1969 * 365 + 1969 / 4 - 1969 / 100 + 1969 / 400) * secondsPerDay.
Definition internalYear : Z := 1.
Definition absoluteToInternal : Z :=
  (absoluteZeroYear - internalYear) * (daysPer400Years * secondsPerDay / 400).
Definition internalToAbsolute : Z := - absoluteToInternal.

(** [t.abs()]: the seconds since the start of the absolute zero year, in the
    zone of [t], as a [uint64]. *)
Definition abs (t : Time) : Z :=
  (sec t + offset (loc t) (sec t) + (unixToInternal + internalToAbsolute)) mod 2 ^ 64.

(** [t.Year()]: whole 400-, 100-, 4- and 1-year cycles are cut off the day
    count in turn.  On the last day of a 400-year cycle and of a 4-year
    cycle the quotient is 4 instead of 3, which [n - n / 4] cuts back. *)
Definition Year (t : Time) : Z :=
  let d := abs t / secondsPerDay in
  let n400 := d / daysPer400Years in
  let d := d - daysPer400Years * n400 in
  let n100 := d / daysPer100Years in
  let n100 := n100 - n100 / 4 in
  let d := d - daysPer100Years * n100 in
  let n4 := d / daysPer4Years in
  let d := d - daysPer4Years * n4 in
  let n := d / 365 in
  let n := n - n / 4 in
  400 * n400 + 100 * n100 + 4 * n4 + n + absoluteZeroYear.

(** [t.MarshalJSON()] succeeds on the years that RFC 3339 can write and
    returns an error on every other one. *)
Definition marshals (t : Time) : bool := (0 <=? Year t) && (Year t <? 10000).

End time.

(** ** Packages [net/url], [context] and the upstream provider *)

Module url.

(** The parsed query string, [r.URL.Query()]: each key with its values in
    the order they appear. *)
Abbreviation Values := (gmap string (list string)).

(** [v.Get(key)]: the first value of [key], the empty string when there is
    none. *)
Definition Get (v : Values) (key : string) : string :=
  match v !! key with
  | Some (x :: _) => x
  | _ => ""
  end.

End url.

(** The [error] values that reach the package: the one [http.Get] returns,
    the one [Decoder.Decode] returns, and [context.DeadlineExceeded]. *)
Inductive error :=
| GetError (cause : string)
| DecodeError (cause : string)
| DeadlineExceeded.

Module context.

(** A context made by [WithTimeout(Background(), d)]: [Done()] is closed
    [Deadline] nanoseconds after the context is made, and [Err()] is then
    [DeadlineExceeded]. *)
Record Context := { Deadline : Z }.

Definition WithTimeout (d : Z) : Context := {| Deadline := d |}.

End context.

(** What one call to the provider comes to. *)
Inductive reply :=
| GetFails (err : error)                  (* [http.Get] returns an error *)
| BodyUndecodable (err : error)           (* [Decode] returns an error *)
| BodyDecodes (data : gmap string value). (* [Decode] fills [data] *)

(** A call to the provider: the time, in nanoseconds, [http.Get] and the
    decoding of the body block for, and what they come to. *)
Record exchange := { latency : Z; outcome : reply }.

(** The provider, as seen from the service: an exchange for every URL. *)
Definition Network := string -> exchange.

(** ** [weather/data.go] *)

Definition API_KEY : string := "346f820b8b57367bb052d099256c939d".

Record WeatherData := {
  WeatherDescription : string;
  Temperature : string;
  WeatherType : string;
  Visibility : string;
  WindSpeed : string;
  WindDirection : string;
  CloudCoverage : string;
  Sunrise : time.Time;
  Sunset : time.Time
}.

(** [classifyWeather]: the weather type of a temperature. *)
Definition classifyWeather (temperature : float) : string :=
  if (temperature <=? 10)%float then "cold"
  else if (temperature <=? 25)%float then "moderate"
  else "hot".

(** [extractWeatherInfo]: the description and the temperature. *)
Definition extractWeatherInfo (data : gmap string value) : exec (string * float) :=
  weatherArray ← assert_slice (index data "weather");
  w0 ← first weatherArray;
  w0 ← assert_map w0;
  weatherDescription ← assert_string (index w0 "description");
  main ← assert_map (index data "main");
  temperature ← assert_float64 (index main "temp");
  mret (weatherDescription, temperature).

(** [extractVisibility]: the visibility in whole kilometres. *)
Definition extractVisibility (data : gmap string value) : exec string :=
  v ← assert_float64 (index data "visibility");
  let visibility := Z.quot (float64_to_int v) 1000 in
  mret (fmt.v_int visibility ++ " KM").

(** [extractWindInfo]: the wind speed and the wind direction. *)
Definition extractWindInfo (data : gmap string value) : exec (string * string) :=
  windData ← assert_map (index data "wind");
  windSpeed ← assert_float64 (index windData "speed");
  deg ← assert_float64 (index windData "deg");
  let windDirection := float64_to_int deg in
  mret (fmt.v_float64 windSpeed ++ " meter/sec", fmt.v_int windDirection ++ " degrees").

(** [extractCloudCoverage]: the cloud coverage. *)
Definition extractCloudCoverage (data : gmap string value) : exec string :=
  cloudData ← assert_map (index data "clouds");
  all ← assert_float64 (index cloudData "all");
  let cloudCoverage := float64_to_int all in
  mret (fmt.v_int cloudCoverage ++ " percentage").

(** [extractSunriseSunset]: the two instants. *)
Definition extractSunriseSunset (data : gmap string value) : exec (time.Time * time.Time) :=
  sys ← assert_map (index data "sys");
  sunrise ← assert_float64 (index sys "sunrise");
  let sunriseUnix := float64_to_int sunrise in
  sys ← assert_map (index data "sys");
  sunset ← assert_float64 (index sys "sunset");
  let sunsetUnix := float64_to_int sunset in
  mret (time.Unix sunriseUnix 0, time.Unix sunsetUnix 0).

(** The URL [getWeather] requests (its local variable [url]). *)
Definition getWeather_url (lat lon : float) : string :=
  "https://api.openweathermap.org/data/2.5/weather?lat=" ++ fmt.f6_float64 lat ++
  "&lon=" ++ fmt.f6_float64 lon ++ "&appid=" ++ API_KEY ++ "&units=metric".

(** [getWeather]: the summary for a pair of coordinates, or an error. *)
Definition getWeather (net : Network) (lat lon : float)
  : exec (option WeatherData * option error) :=
  let url := getWeather_url lat lon in
  match outcome (net url) with
  | GetFails err => mret (None, Some err)
  | BodyUndecodable err => mret (None, Some err)
  | BodyDecodes data =>
      '(weatherDescription, temperature) ← extractWeatherInfo data;
      visibility ← extractVisibility data;
      '(windSpeed, windDirection) ← extractWindInfo data;
      cloudCoverage ← extractCloudCoverage data;
      '(sunrise, sunset) ← extractSunriseSunset data;
      let weatherType := classifyWeather temperature in
      mret (Some {| WeatherDescription := weatherDescription;
                    Temperature := fmt.v_float64 temperature ++ " Celsius";
                    WeatherType := weatherType;
                    Visibility := visibility;
                    WindSpeed := windSpeed;
                    WindDirection := windDirection;
                    CloudCoverage := cloudCoverage;
                    Sunrise := sunrise;
                    Sunset := sunset |}, None)
  end.

(** The time after which [getWeather] returns or panics: the calls that
    block are [http.Get] and the decoding of the body. *)
Definition getWeather_elapsed (net : Network) (lat lon : float) : Z :=
  latency (net (getWeather_url lat lon)).

(** What the caller of [getWeatherWithContext] observes.  The goroutine it
    starts is not stopped when the caller gives up: [later] is the panic it
    still raises, and when.  A panic in a goroutine that nothing recovers
    ends the whole process. *)
Inductive delivery :=
| Returns (at_ : Z) (weatherData : option WeatherData) (err : option error)
          (later : option (Z * panic))
| ProcessExits (at_ : Z) (p : panic).

(** [getWeatherWithContext]: [getWeather] runs in a goroutine that sends its
    error on [errCh] or else its result on [ch] (both buffered); the caller
    waits in a [select] for [ctx.Done()], [errCh] or [ch].  The goroutine is
    done after [getWeather_elapsed], the context after its deadline; a case
    can be taken from the instant it is ready. *)
Definition getWeatherWithContext (ctx : context.Context) (net : Network) (lat lon : float)
  : list delivery :=
  let t := getWeather_elapsed net lat lon in
  let job := getWeather net lat lon in
  (if context.Deadline ctx <=? t
   then [Returns (context.Deadline ctx) None (Some DeadlineExceeded)
           match job with
           | Panic p => Some (t, p)
           | Return _ => None
           end]
   else []) ++
  (if t <=? context.Deadline ctx
   then match job with
        | Panic p => [ProcessExits t p]
        | Return (weatherData, Some err) => [Returns t None (Some err) None]
        | Return (weatherData, None) => [Returns t weatherData None None]
        end
   else []).

Module http.

Definition StatusOK : Z := 200.
Definition StatusBadRequest : Z := 400.
Definition StatusInternalServerError : Z := 500.

(** The part of a request the handler reads. *)
Record Request := { Query : url.Values }.

(** What the handler writes: plain text, the JSON encoding of a
    [WeatherData] pointer, or nothing at all. *)
Inductive body :=
| PlainText (s : string)
| JSON (weatherData : option WeatherData)
| Empty.

Record Response := { StatusCode : Z; Body : body }.

(** [http.Error(w, error, code)]. *)
Definition Error (error : string) (code : Z) : Response :=
  {| StatusCode := code; Body := PlainText (fmt.ln error) |}.

(** [json.Marshal] of a [WeatherData] pointer: [nil] is [null], strings
    always encode, and the two times encode when [MarshalJSON] accepts
    them. *)
Definition marshals (weatherData : option WeatherData) : bool :=
  match weatherData with
  | None => true
  | Some d => time.marshals (Sunrise d) && time.marshals (Sunset d)
  end.

(** [json.NewEncoder(w).Encode(v)]: the value is encoded into a buffer
    first and written only if that succeeded; on an error nothing is
    written.  The handler drops the returned error and returns, and the
    server then sends status 200, with the encoding or with no body. *)
Definition Encode (weatherData : option WeatherData) : Response :=
  {| StatusCode := StatusOK;
     Body := if marshals weatherData then JSON weatherData else Empty |}.

End http.

(** One request, as the client and the process see it: a response at some
    time (and maybe a panic of the abandoned goroutine later), or the end of
    the process before any response. *)
Inductive run :=
| Responds (at_ : Z) (resp : http.Response) (later : option (Z * panic))
| Exits (at_ : Z) (p : panic).

(** [WeatherHandler]: every run the request may take. *)
Definition WeatherHandler (net : Network) (r : http.Request) : list run :=
  let '(lat, err) := strconv.ParseFloat (url.Get (http.Query r) "lat") in
  match err with
  | Some _ => [Responds 0 (http.Error "Invalid latitude" http.StatusBadRequest) None]
  | None =>
      let '(lon, err) := strconv.ParseFloat (url.Get (http.Query r) "lon") in
      match err with
      | Some _ => [Responds 0 (http.Error "Invalid longitude" http.StatusBadRequest) None]
      | None =>
          let ctx := context.WithTimeout (5 * time.Second) in
          (fun d =>
             match d with
             | Returns t weatherData (Some _) later =>
                 Responds t (http.Error "Failed to fetch weather data"
                               http.StatusInternalServerError) later
             | Returns t weatherData None later =>
                 Responds t (http.Encode weatherData) later
             | ProcessExits t p => Exits t p
             end) <$> getWeatherWithContext ctx net lat lon
      end
  end.

(** ** The fields the package consumes, read in one step

    [readings_of] states what the five extraction helpers look for: the
    document has the shape the package expects exactly when every path below
    leads to a value of the expected type.  [summary] is the [WeatherData]
    built from the values found. *)

Record readings := {
  description : string;
  temp : float;
  visibility_m : float;
  wind_speed : float;
  wind_deg : float;
  clouds_all : float;
  sunrise_s : float;
  sunset_s : float
}.

Definition as_float64 (v : value) : option float :=
  match v with VNum f => Some f | _ => None end.

Definition as_string (v : value) : option string :=
  match v with VStr s => Some s | _ => None end.

Definition as_map (v : value) : option (gmap string value) :=
  match v with VObj m => Some m | _ => None end.

Definition as_first_map (v : value) : option (gmap string value) :=
  match v with VArr (VObj m :: _) => Some m | _ => None end.

Definition readings_of (data : gmap string value) : option readings :=
  w0 ← data !! "weather" ≫= as_first_map;
  description ← w0 !! "description" ≫= as_string;
  main ← data !! "main" ≫= as_map;
  temp ← main !! "temp" ≫= as_float64;
  visibility ← data !! "visibility" ≫= as_float64;
  wind ← data !! "wind" ≫= as_map;
  speed ← wind !! "speed" ≫= as_float64;
  deg ← wind !! "deg" ≫= as_float64;
  clouds ← data !! "clouds" ≫= as_map;
  all ← clouds !! "all" ≫= as_float64;
  sys ← data !! "sys" ≫= as_map;
  sunrise ← sys !! "sunrise" ≫= as_float64;
  sunset ← sys !! "sunset" ≫= as_float64;
  Some {| description := description; temp := temp; visibility_m := visibility;
          wind_speed := speed; wind_deg := deg; clouds_all := all;
          sunrise_s := sunrise; sunset_s := sunset |}.

Definition summary (r : readings) : WeatherData :=
  {| WeatherDescription := description r;
     Temperature := fmt.v_float64 (temp r) ++ " Celsius";
     WeatherType := classifyWeather (temp r);
     Visibility := fmt.v_int (Z.quot (float64_to_int (visibility_m r)) 1000) ++ " KM";
     WindSpeed := fmt.v_float64 (wind_speed r) ++ " meter/sec";
     WindDirection := fmt.v_int (float64_to_int (wind_deg r)) ++ " degrees";
     CloudCoverage := fmt.v_int (float64_to_int (clouds_all r)) ++ " percentage";
     Sunrise := time.Unix (float64_to_int (sunrise_s r)) 0;
     Sunset := time.Unix (float64_to_int (sunset_s r)) 0 |}.

(** ** Fixtures *)

Definition obj (fields : list (string * value)) : value := VObj (list_to_map fields).

(** A provider response with every field the package reads. *)
Definition fixture_with (deg : float) : gmap string value :=
  list_to_map
    [("weather", VArr [obj [("description", VStr "clear sky")]]);
     ("main", obj [("temp", VNum 15.3)]);
     ("visibility", VNum 8000);
     ("wind", obj [("speed", VNum 3.1); ("deg", VNum deg)]);
     ("clouds", obj [("all", VNum 40)]);
     ("sys", obj [("sunrise", VNum 1700000000); ("sunset", VNum 1700040000)])].

Definition fixture : gmap string value := fixture_with 180.

(** A provider that answers every URL with [data] after [l] nanoseconds. *)
Definition provider (l : Z) (data : gmap string value) : Network :=
  fun _ => {| latency := l; outcome := BodyDecodes data |}.

(** A provider whose every body the decoder rejects with [err], after [l]
    nanoseconds. *)
Definition broken_provider (l : Z) (err : error) : Network :=
  fun _ => {| latency := l; outcome := BodyUndecodable err |}.

(** A request with the given [lat] and [lon] parameters. *)
Definition request (lat lon : string) : http.Request :=
  {| http.Query := {[ "lat" := [lat]; "lon" := [lon] ]} |}.

(** ** Predicates used in the statements *)

(** Every text field of the summary is set; the description is the
    provider's, the others carry their unit or one of the three classes. *)
Definition populated (r : readings) (d : WeatherData) : Prop :=
  WeatherDescription d = description r /\
  Temperature d <> "" /\
  (WeatherType d = "cold" \/ WeatherType d = "moderate" \/ WeatherType d = "hot") /\
  Visibility d <> "" /\ WindSpeed d <> "" /\ WindDirection d <> "" /\
  CloudCoverage d <> "" /\
  Sunrise d = time.Unix (float64_to_int (sunrise_s r)) 0 /\
  Sunset d = time.Unix (float64_to_int (sunset_s r)) 0.

(** [n] is [± m * 2^e] with its fraction dropped: the integer of the same
    sign with [|n| <= m * 2^e < |n| + 1]. *)
Definition integer_part (s : bool) (m : positive) (e : Z) (n : Z) : Prop :=
  (if s then n <= 0 else 0 <= n) /\
  Z.abs n * 2 ^ Z.max (- e) 0 <= Zpos m * 2 ^ Z.max e 0 < (Z.abs n + 1) * 2 ^ Z.max (- e) 0.

(** The Unix seconds from 0000-01-01T00:00:00Z to 9999-12-31T23:59:59Z. *)
Definition rfc3339 (unix : Z) : Prop := -62167219200 <= unix <= 253402300799.

(** Both instants of the document are in those years. *)
Definition encodable (r : readings) : Prop :=
  rfc3339 (float64_to_int (sunrise_s r)) /\ rfc3339 (float64_to_int (sunset_s r)).

Definition all_digits (s : string) : bool :=
  forallb strconv.is_digit (list_ascii_of_string s).



(** The instant a run responds, or ends the process. *)
Definition finished_at (x : run) : Z :=
  match x with
  | Responds t _ _ => t
  | Exits t _ => t
  end.

(** The run ends the process, before a response or after it. *)
Definition ends_process (x : run) : Prop :=
  match x with
  | Exits _ _ => True
  | Responds _ _ later => is_Some later
  end.

(** The fields [getWeather] reads in the object under a top-level key. *)
Definition fields_read (key : string) : list string :=
  if String.eqb key "main" then ["temp"]
  else if String.eqb key "wind" then ["speed"; "deg"]
  else if String.eqb key "clouds" then ["all"]
  else if String.eqb key "sys" then ["sunrise"; "sunset"]
  else [].

(** The top-level keys [getWeather] reads. *)
Definition keys_read : list string :=
  ["weather"; "main"; "visibility"; "wind"; "clouds"; "sys"].

(** ** Reading a rendered number back

    What a text laid out by [%v] or by [strconv.FormatInt] denotes.  These
    functions are not part of the package; the properties below use them to
    say that a rendered text determines the number rendered. *)

(** The number a digit string denotes, continuing from [acc]. *)
Fixpoint num (s : string) (acc : Z) : Z :=
  match s with
  | "" => acc
  | String c s' => num s' (10 * acc + (strconv.code c - 48))
  end.

(** The leading digits of a text, and what follows them. *)
Fixpoint readDigits (s : string) : string * string :=
  match s with
  | "" => ("", "")
  | String c s' =>
      if strconv.is_digit c
      then let '(ds, rest) := readDigits s' in (String c ds, rest)
      else ("", s)
  end.

(** A decimal text: an optional minus sign, digits, optionally a point
    and digits, optionally [e], a sign and digits.  It is read as the sign,
    the digits [m] and the exponent [x] of ten: the text denotes
    [± m * 10^x]. *)
Definition textSign (s : string) : bool * string :=
  match s with
  | String c s' => if Ascii.eqb c "-" then (true, s') else (false, s)
  | "" => (false, s)
  end.

Definition textFraction (s : string) : string * string :=
  match s with
  | String c s' => if Ascii.eqb c "." then readDigits s' else ("", s)
  | "" => ("", s)
  end.

Definition textExponent (s : string) : option Z :=
  match s with
  | "" => Some 0
  | String c (String sg s') =>
      let '(xp, rest) := readDigits s' in
      match rest with
      | "" => if Ascii.eqb c "e"
              then Some (if Ascii.eqb sg "-" then - num xp 0 else num xp 0)
              else None
      | String _ _ => None
      end
  | String _ "" => None
  end.

Definition textValue (s : string) : option (bool * Z * Z) :=
  let '(neg, s) := textSign s in
  let '(ip, s) := readDigits s in
  let '(fp, s) := textFraction s in
  match ip, textExponent s with
  | String _ _, Some x => Some (neg, num (ip ++ fp) 0, x - Z.of_nat (String.length fp))
  | _, _ => None
  end.

Definition starts_nondigit (s : string) : Prop :=
  match s with
  | "" => True
  | String c _ => strconv.is_digit c = false
  end.

(** The exponent part of a laid out number: nothing, or [e], a sign and
    digits. *)
Definition exponent_text (t : string) (x : Z) : Prop :=
  t = "" /\ x = 0 \/
  exists (sn : bool) (xs : string),
    t = "e" ++ (if sn then "-" else "+") ++ xs /\ all_digits xs = true /\
    x = if sn then - num xs 0 else num xs 0.

(** A finite nonzero [float64] is [m * 2^e] with [m] below [2^53]; either
    [m] has 53 bits, or the number is subnormal and [e] is the least
    exponent. *)
Definition binary64 (m e : Z) : Prop :=
  0 < m < 2 ^ 53 /\ -1074 <= e /\ (2 ^ 52 <= m \/ e = -1074).

(** The real number a decimal denotes. *)
Definition decimal_real (c k : Z) : R := (IZR c * powerRZ 10 k)%R.

(** * Properties *)

(** ** Generic helpers *)

(** Case analysis on the value found under [key], keeping the one case in
    which the run goes on. *)
Ltac look key :=
  match goal with
  | |- context [?m !! key] =>
      destruct (m !! key) as [[]|] eqn:?; simpl; eauto; []
  end.

Lemma getWeather_decoded (net : Network) (lat lon : float) (data : gmap string value) :
  outcome (net (getWeather_url lat lon)) = BodyDecodes data ->
  match readings_of data with
  | Some r => getWeather net lat lon = Return (Some (summary r), None)
  | None => exists p, getWeather net lat lon = Panic p
  end.
Proof.
  intros Hnet. unfold getWeather. rewrite Hnet.
  unfold readings_of, extractWeatherInfo, extractVisibility, extractWindInfo,
    extractCloudCoverage, extractSunriseSunset, index.
  look "weather".
  match goal with
  | |- context [first ?l] => destruct l as [|[] ?]; simpl; eauto; []
  end.
  look "description". look "main". look "temp". look "visibility".
  look "wind". look "speed". look "deg". look "clouds". look "all".
  look "sys". look "sunrise".
  match goal with
  | |- context [?m !! "sunset"] => destruct (m !! "sunset") as [[]|]; simpl; eauto
  end.
Qed.

Lemma getWeather_failed (net : Network) (lat lon : float) (err : error) :
  outcome (net (getWeather_url lat lon)) = GetFails err \/
  outcome (net (getWeather_url lat lon)) = BodyUndecodable err ->
  getWeather net lat lon = Return (None, Some err).
Proof. unfold getWeather. intros [-> | ->]; reflexivity. Qed.

(** ** The shortest decimal identifies the float *)

Lemma unit_pos e2 k : 0 < strconv.unit e2 k.
Proof. unfold strconv.unit. apply Z.mul_pos_pos; apply Z.pow_pos_nonneg; lia. Qed.

Lemma scaled_lt n n' e2 k : n < n' -> strconv.scaled n e2 k < strconv.scaled n' e2 k.
Proof.
  intros Hn. unfold strconv.scaled.
  apply Z.mul_lt_mono_pos_r; [apply Z.pow_pos_nonneg; lia|].
  apply Z.mul_lt_mono_pos_r; [apply Z.pow_pos_nonneg; lia|].
  exact Hn.
Qed.

Lemma scaled_exact n e2 k :
  k <= Z.min e2 0 -> (strconv.scaled n e2 k / strconv.unit e2 k) * strconv.unit e2 k = strconv.scaled n e2 k.
Proof.
  intros Hk. unfold strconv.scaled, strconv.unit.
  destruct (Z.le_gt_cases 0 e2) as [He | He].
  - rewrite (Z.max_r (- e2) 0), (Z.max_r k 0) by lia.
    change (2 ^ 0 * 10 ^ 0) with 1. rewrite Z.div_1_r. lia.
  - rewrite (Z.max_l (- e2) 0), (Z.max_r k 0), (Z.max_r e2 0), (Z.max_l (- k) 0) by lia.
    change (10 ^ 0) with 1. change (2 ^ 0) with 1. rewrite !Z.mul_1_r.
    replace (- k) with (- e2 + (e2 - k)) by lia.
    rewrite Z.pow_add_r by lia.
    replace (10 ^ (- e2)) with (2 ^ (- e2) * 5 ^ (- e2))
      by (rewrite <- Z.pow_mul_l; reflexivity).
    replace (n * (2 ^ (- e2) * 5 ^ (- e2) * 10 ^ (e2 - k)))
      with (n * 5 ^ (- e2) * 10 ^ (e2 - k) * 2 ^ (- e2)) by ring.
    rewrite Z.div_mul; [reflexivity|].
    apply Z.pow_nonzero; lia.
Qed.

Lemma within_lt inclusive a b : a < b -> strconv.within inclusive a b = true.
Proof. intros H. destruct inclusive; simpl; [apply Z.leb_le | apply Z.ltb_lt]; lia. Qed.

Lemma within_trans_l inclusive a b c : strconv.within inclusive a b = true -> b <= c -> strconv.within inclusive a c = true.
Proof. destruct inclusive; simpl; [rewrite !Z.leb_le | rewrite !Z.ltb_lt]; lia. Qed.

Lemma within_trans_r inclusive a b c : a <= b -> strconv.within inclusive b c = true -> strconv.within inclusive a c = true.
Proof. destruct inclusive; simpl; [rewrite !Z.leb_le | rewrite !Z.ltb_lt]; lia. Qed.

Lemma lowerBound_lt mant exp : strconv.lowerBound mant exp < 4 * mant.
Proof. unfold strconv.lowerBound. case_match; lia. Qed.

Lemma roundShortest_from_identifies (fuel : nat) (mant exp k : Z) :
  k - Z.of_nat fuel <= Z.min (exp - 2) 0 ->
  strconv.identifies mant exp (strconv.roundShortest_from fuel mant exp k).
Proof.
  revert k. induction fuel as [|fuel IH]; intros k Hk.
  all: unfold strconv.roundShortest_from; fold strconv.roundShortest_from.
  all: set (e2 := exp - 2) in *.
  all: set (b := strconv.unit e2 k).
  all: set (S0 := strconv.scaled (4 * mant) e2 k).
  all: set (c := S0 / b).
  all: assert (0 < b) as Hb by apply unit_pos.
  all: assert (c * b <= S0 < (c + 1) * b) as Hc
    by (pose proof (Z.div_mod S0 b ltac:(lia)); pose proof (Z.mod_pos_bound S0 b Hb);
        unfold c; nia).
  all: pose proof (scaled_lt _ _ e2 k (lowerBound_lt mant exp)) as Hlo; fold S0 in Hlo.
  all: assert (S0 < strconv.scaled (strconv.upperBound mant) e2 k) as Hup
    by (apply scaled_lt; unfold strconv.upperBound; lia).
  all: destruct (strconv.within _ (strconv.scaled (strconv.lowerBound mant exp) e2 k) (c * b)) eqn:Hdown;
       destruct (strconv.within _ ((c + 1) * b) (strconv.scaled (strconv.upperBound mant) e2 k)) eqn:Hupok;
       cbn [andb].
  all: try (split; cbn [strconv.d_digits strconv.d_exp]; fold e2; fold b;
            first [ case_match; first [assumption | eapply within_trans_l; [eassumption|lia]
                                      | eapply within_trans_r; [|eassumption]; lia]
                  | assumption
                  | apply within_lt; lia ]).
  - exfalso. pose proof (scaled_exact (4 * mant) e2 k ltac:(lia)) as Hex.
    fold S0 b c in Hex. rewrite Hex in Hdown.
    rewrite within_lt in Hdown by assumption. discriminate.
  - apply IH. lia.
Qed.

Lemma roundShortest_identifies (mant exp : Z) :
  strconv.identifies mant exp (strconv.roundShortest mant exp).
Proof.
  unfold strconv.roundShortest. apply roundShortest_from_identifies. lia.
Qed.

Lemma length_append (a b : string) :
  String.length (a ++ b) = (String.length a + String.length b)%nat.
Proof. induction a as [|c a IH]; simpl; [reflexivity | rewrite IH; reflexivity]. Qed.

Lemma append_nonempty (a b : string) : b <> "" -> a ++ b <> "".
Proof. destruct a; simpl; [auto | discriminate]. Qed.

(** ** A rendered [float64] determines the value

    The text [%v] writes for a [float64] is read back by [textValue] as a
    decimal between the midpoints to the neighbouring values, and the
    intervals of two different values do not meet. *)

Lemma app_cons (x : ascii) (a b : string) : String x a ++ b = String x (a ++ b).
Proof. reflexivity. Qed.

Lemma app_nil (b : string) : "" ++ b = b.
Proof. reflexivity. Qed.

Lemma app_assoc' (a b c : string) : (a ++ b) ++ c = a ++ (b ++ c).
Proof. induction a as [|x a IH]; [reflexivity|]. rewrite !app_cons, IH. reflexivity. Qed.

Lemma app_empty_r (a : string) : a ++ "" = a.
Proof. induction a as [|x a IH]; [reflexivity|]. rewrite app_cons, IH. reflexivity. Qed.

Lemma all_digits_app (a b : string) :
  all_digits (a ++ b) = all_digits a && all_digits b.
Proof.
  induction a as [|x a IH]; [reflexivity|].
  rewrite app_cons. unfold all_digits in *. cbn [list_ascii_of_string forallb].
  rewrite IH. apply andb_assoc.
Qed.

Lemma all_digits_cons (c : ascii) (s : string) :
  all_digits (String c s) = strconv.is_digit c && all_digits s.
Proof. reflexivity. Qed.

Lemma num_app (a b : string) (acc : Z) : num (a ++ b) acc = num b (num a acc).
Proof.
  revert acc. induction a as [|x a IH]; intros acc; [reflexivity|].
  rewrite app_cons. cbn [num]. apply IH.
Qed.

Lemma num_zeros (n : nat) (acc : Z) : num (strconv.zeros n) acc = acc * 10 ^ Z.of_nat n.
Proof.
  revert acc. induction n as [|n IH]; intros acc.
  - simpl. lia.
  - cbn [strconv.zeros num]. rewrite IH. change (strconv.code "0" - 48) with 0.
    rewrite Nat2Z.inj_succ, Z.pow_succ_r by lia. ring.
Qed.

Lemma all_digits_zeros (n : nat) : all_digits (strconv.zeros n) = true.
Proof. induction n as [|n IH]; [reflexivity|]. cbn [strconv.zeros]. rewrite all_digits_cons, IH. reflexivity. Qed.

Lemma length_zeros (n : nat) : String.length (strconv.zeros n) = n.
Proof. induction n as [|n IH]; simpl; [reflexivity | rewrite IH; reflexivity]. Qed.

Lemma readDigits_app (ds rest : string) :
  all_digits ds = true -> starts_nondigit rest -> readDigits (ds ++ rest) = (ds, rest).
Proof.
  intros Hds Hrest. induction ds as [|c ds IH].
  - rewrite app_nil. destruct rest as [|c rest]; [reflexivity|].
    cbn [readDigits starts_nondigit] in *. rewrite Hrest. reflexivity.
  - rewrite all_digits_cons in Hds. apply andb_true_iff in Hds as [Hc Hds].
    rewrite app_cons. cbn [readDigits]. rewrite Hc, (IH Hds). reflexivity.
Qed.

Lemma readDigits_all (ds : string) : all_digits ds = true -> readDigits ds = (ds, "").
Proof.
  intros Hds. rewrite <- (app_empty_r ds) at 1. apply readDigits_app; [exact Hds | exact I].
Qed.

(** *** The digits of [pretty] *)

Lemma pretty_N_char_digit (x : N) :
  (x < 10)%N ->
  strconv.is_digit (pretty_N_char x) = true /\ strconv.code (pretty_N_char x) - 48 = Z.of_N x.
Proof.
  intros Hx.
  assert (x = 0 \/ x = 1 \/ x = 2 \/ x = 3 \/ x = 4 \/ x = 5 \/ x = 6 \/ x = 7 \/ x = 8 \/ x = 9)%N
    as H by lia.
  repeat (destruct H as [-> | H]; [split; reflexivity|]). subst. split; reflexivity.
Qed.

Lemma pretty_N_go_app (x : N) (s : string) : pretty_N_go x s = pretty_N_go x "" ++ s.
Proof.
  revert s. induction (N.lt_wf_0 x) as [x _ IH]; intros s.
  destruct (N.eq_0_gt_0_cases x) as [-> | Hx]; [rewrite !pretty_N_go_0; reflexivity|].
  rewrite !(pretty_N_go_step x) by exact Hx.
  rewrite (IH (x `div` 10)%N) by (apply N.div_lt; lia).
  rewrite (IH (x `div` 10)%N ltac:(apply N.div_lt; lia) (String _ "")).
  rewrite app_assoc'. reflexivity.
Qed.

Lemma pretty_N_go_digits (x : N) :
  all_digits (pretty_N_go x "") = true /\
  forall acc, num (pretty_N_go x "") acc =
              acc * 10 ^ Z.of_nat (String.length (pretty_N_go x "")) + Z.of_N x.
Proof.
  induction (N.lt_wf_0 x) as [x _ IH].
  destruct (N.eq_0_gt_0_cases x) as [-> | Hx].
  { rewrite pretty_N_go_0. split; [reflexivity|]. intros acc. simpl. lia. }
  rewrite (pretty_N_go_step x) by exact Hx. rewrite pretty_N_go_app.
  destruct (IH (x `div` 10)%N ltac:(apply N.div_lt; lia)) as [Hd Hn].
  destruct (pretty_N_char_digit (x `mod` 10)%N ltac:(apply N.mod_lt; lia)) as [Hc Hv].
  split.
  - rewrite all_digits_app, Hd, all_digits_cons, Hc. reflexivity.
  - intros acc. rewrite num_app, Hn. cbn [num]. rewrite Hv.
    rewrite length_append. cbn [String.length].
    rewrite Nat2Z.inj_add, Z.pow_add_r by lia. change (10 ^ Z.of_nat 1) with 10.
    pose proof (N.div_mod x 10 ltac:(lia)) as Hdm.
    rewrite N2Z.inj_mod. rewrite N2Z.inj_div in *.
    pose proof (Z.div_mod (Z.of_N x) 10 ltac:(lia)). change (Z.of_N 10) with 10.
    generalize (10 ^ Z.of_nat (String.length (pretty_N_go (x `div` 10) ""))).
    intros P. clear - H. nia.
Qed.

Lemma pretty_N_go_nonempty (x : N) : (0 < x)%N -> pretty_N_go x "" <> "".
Proof.
  intros Hx. rewrite pretty_N_go_step by exact Hx. rewrite pretty_N_go_app.
  apply append_nonempty. discriminate.
Qed.

(** The text of a natural number: digits only, at least one, denoting it. *)
Lemma FormatInt_digits (c : Z) :
  0 <= c ->
  all_digits (strconv.FormatInt c) = true /\ strconv.FormatInt c <> "" /\
  forall acc, num (strconv.FormatInt c) acc =
              acc * 10 ^ Z.of_nat (String.length (strconv.FormatInt c)) + c.
Proof.
  intros Hc. unfold strconv.FormatInt, pretty, pretty_Z.
  destruct c as [|p|p]; [| |lia].
  - split; [reflexivity|]. split; [discriminate|]. intros acc.
    change (num "0" acc) with (10 * acc + 0).
    change (10 ^ Z.of_nat (String.length "0")) with 10. lia.
  - unfold pretty, pretty_positive, pretty, pretty_N.
    destruct (decide (N.pos p = 0%N)) as [H|_]; [discriminate|].
    destruct (pretty_N_go_digits (N.pos p)) as [Hd Hn].
    split; [exact Hd|]. split; [apply pretty_N_go_nonempty; lia|]. exact Hn.
Qed.

(** *** Parts of a string *)

Lemma substring_all (n : nat) (s : string) :
  (String.length s <= n)%nat -> substring 0 n s = s.
Proof.
  revert n. induction s as [|c s IH]; intros n Hn.
  - destruct n; reflexivity.
  - destruct n as [|n]; [simpl in Hn; lia|]. cbn [substring]. rewrite IH; [reflexivity|].
    simpl in Hn. lia.
Qed.

Lemma substring_split (n m : nat) (s : string) :
  (n <= String.length s <= n + m)%nat -> substring 0 n s ++ substring n m s = s.
Proof.
  revert n. induction s as [|c s IH]; intros n Hn.
  - simpl in Hn. assert (n = 0)%nat as -> by lia. destruct m; reflexivity.
  - destruct n as [|n].
    + rewrite (substring_all m) by (simpl in *; lia).
      destruct m; [simpl in Hn; lia|]. reflexivity.
    + cbn [substring]. rewrite app_cons, IH; [reflexivity|]. simpl in Hn. lia.
Qed.

Lemma length_substring_0 (n : nat) (s : string) :
  (n <= String.length s)%nat -> String.length (substring 0 n s) = n.
Proof.
  revert n. induction s as [|c s IH]; intros n Hn.
  - simpl in Hn. assert (n = 0)%nat as -> by lia. reflexivity.
  - destruct n as [|n]; [reflexivity|]. cbn [substring String.length].
    rewrite IH; [reflexivity|]. simpl in Hn. lia.
Qed.

Lemma all_digits_substring (n m : nat) (s : string) :
  all_digits s = true -> all_digits (substring n m s) = true.
Proof.
  revert n m. induction s as [|c s IH]; intros n m Hs.
  - destruct n, m; reflexivity.
  - rewrite all_digits_cons in Hs. apply andb_true_iff in Hs as [Hc Hs].
    destruct n as [|n].
    + destruct m as [|m]; [reflexivity|]. cbn [substring].
      rewrite all_digits_cons, Hc, IH by exact Hs. reflexivity.
    + cbn [substring]. apply IH. exact Hs.
Qed.

(** *** Reading a laid out number *)

Lemma digit_not_mark (c : ascii) :
  strconv.is_digit c = true ->
  Ascii.eqb c "-" = false /\ Ascii.eqb c "." = false /\ Ascii.eqb c "e" = false.
Proof.
  intros Hc. repeat split; apply Ascii.eqb_neq; intros ->; discriminate.
Qed.

Lemma textExponent_text (t : string) (x : Z) :
  exponent_text t x ->
  textExponent t = Some x /\ starts_nondigit t /\ textFraction t = ("", t).
Proof.
  intros [[-> ->] | (sn & xs & -> & Hxs & ->)]; [repeat split|].
  destruct sn.
  - change ("e" ++ "-" ++ xs) with (String "e" (String "-" xs)).
    split; [|split; reflexivity].
    unfold textExponent. rewrite (readDigits_all xs Hxs). reflexivity.
  - change ("e" ++ "+" ++ xs) with (String "e" (String "+" xs)).
    split; [|split; reflexivity].
    unfold textExponent. rewrite (readDigits_all xs Hxs). reflexivity.
Qed.

Lemma textValue_layout (neg pt : bool) (a b t : string) (x : Z) :
  all_digits a = true -> a <> "" -> all_digits b = true -> exponent_text t x ->
  textValue ((if neg then "-" else "") ++ a ++ (if pt then "." ++ b else "") ++ t) =
    Some (neg, num (a ++ (if pt then b else "")) 0,
          x - Z.of_nat (String.length (if pt then b else ""))).
Proof.
  intros Ha Ha0 Hb Ht. destruct (textExponent_text t x Ht) as (Hx & Hnd & Hfr).
  destruct a as [|c a]; [congruence|].
  pose proof Ha as Hca. rewrite all_digits_cons in Hca. apply andb_true_iff in Hca as [Hc _].
  destruct (digit_not_mark c Hc) as (Hm & _ & _).
  assert (Hsign : textSign ((if neg then "-" else "") ++ String c a ++
                            (if pt then "." ++ b else "") ++ t) =
                  (neg, String c a ++ (if pt then "." ++ b else "") ++ t)).
  { destruct neg; [reflexivity|]. rewrite app_nil, app_cons. unfold textSign.
    rewrite Hm. reflexivity. }
  unfold textValue. rewrite Hsign.
  assert (Hrest : starts_nondigit ((if pt then "." ++ b else "") ++ t)).
  { destruct pt; [reflexivity|]. rewrite app_nil. exact Hnd. }
  rewrite (readDigits_app _ _ Ha Hrest).
  assert (Hfrac : textFraction ((if pt then "." ++ b else "") ++ t) =
                  (if pt then b else "", t)).
  { destruct pt; [|rewrite app_nil; exact Hfr].
    change (("." ++ b) ++ t) with (String "." (b ++ t)). unfold textFraction.
    change (Ascii.eqb "." ".") with true. cbv iota.
    apply readDigits_app; assumption. }
  rewrite Hfrac, Hx. reflexivity.
Qed.

Lemma length_substring_from (n m : nat) (s : string) :
  (n <= String.length s <= n + m)%nat ->
  String.length (substring n m s) = (String.length s - n)%nat.
Proof.
  intros Hn. pose proof (substring_split n m s Hn) as Hsplit.
  apply (f_equal String.length) in Hsplit.
  rewrite length_append, length_substring_0 in Hsplit by lia. lia.
Qed.

Lemma substring_nonempty (n : nat) (s : string) :
  (0 < n)%nat -> s <> "" -> substring 0 n s <> "".
Proof.
  intros Hn Hs. destruct s as [|c s]; [congruence|].
  destruct n as [|n]; [lia|]. discriminate.
Qed.

(** The [%f] layout of [c * 10^k] reads back as [c] and [k], or as the
    integer [c * 10^k] when [k] is not negative. *)
Lemma textValue_fmtF (neg : bool) (c k : Z) :
  0 < c ->
  exists M E : Z,
    textValue (strconv.fmtF neg (strconv.FormatInt c)
                 (Z.of_nat (String.length (strconv.FormatInt c)) + k)) = Some (neg, M, E) /\
    (M = c /\ E = k \/ M = c * 10 ^ k /\ E = 0 /\ 0 <= k).
Proof.
  intros Hc. destruct (FormatInt_digits c ltac:(lia)) as (Hd & Hne & Hnum).
  set (ds := strconv.FormatInt c) in *.
  assert (Hlen : (0 < String.length ds)%nat).
  { destruct ds; [congruence|]. simpl. lia. }
  set (nd := Z.of_nat (String.length ds)). set (dp := nd + k).
  set (a := if 0 <? dp
            then substring 0 (Z.to_nat dp) ds ++ strconv.zeros (Z.to_nat (dp - nd))
            else "0").
  set (b := strconv.zeros (Z.to_nat (- dp)) ++ substring (Z.to_nat dp) (String.length ds) ds).
  assert (Htext : strconv.fmtF neg ds dp =
                  (if neg then "-" else "") ++ a ++ (if dp <? nd then "." ++ b else "") ++ "").
  { rewrite app_empty_r. reflexivity. }
  assert (Ha : all_digits a = true /\ a <> "").
  { unfold a. destruct (Z.ltb_spec 0 dp) as [Hdp|Hdp]; [|split; [reflexivity|discriminate]].
    split.
    - rewrite all_digits_app, all_digits_substring, all_digits_zeros by exact Hd. reflexivity.
    - intros Hempty. apply (f_equal String.length) in Hempty.
      rewrite length_append in Hempty.
      pose proof (substring_nonempty (Z.to_nat dp) ds ltac:(lia) Hne) as Hsub.
      destruct (substring 0 (Z.to_nat dp) ds); [congruence|]. simpl in Hempty. lia. }
  assert (Hb : all_digits b = true).
  { unfold b. rewrite all_digits_app, all_digits_zeros, all_digits_substring by exact Hd.
    reflexivity. }
  rewrite Htext.
  rewrite (textValue_layout neg (dp <? nd) a b "" 0 (proj1 Ha) (proj2 Ha) Hb
             (or_introl (conj eq_refl eq_refl))).
  eexists _, _. split; [reflexivity|].
  unfold a, b. destruct (Z.ltb_spec dp nd) as [Hlt|Hge].
  - left. destruct (Z.ltb_spec 0 dp) as [Hdp|Hdp].
    + replace (Z.to_nat (dp - nd)) with 0%nat by lia.
      replace (Z.to_nat (- dp)) with 0%nat by lia.
      cbn [strconv.zeros]. rewrite app_empty_r, app_nil.
      rewrite substring_split by lia. rewrite Hnum.
      rewrite length_substring_from by lia. fold nd. lia.
    + replace (Z.to_nat dp) with 0%nat by lia.
      rewrite (substring_all (String.length ds)) by lia.
      rewrite !num_app, num_zeros, Hnum, !length_append, length_zeros.
      change (num "0" 0) with 0. fold nd. lia.
  - right. destruct (Z.ltb_spec 0 dp) as [Hdp|Hdp]; [|lia].
    rewrite (substring_all (Z.to_nat dp)) by lia.
    rewrite app_empty_r, num_app, num_zeros, Hnum.
    replace (Z.of_nat (Z.to_nat (dp - nd))) with k by lia.
    change (Z.of_nat (String.length "")) with 0. lia.
Qed.

(** The [%e] layout of [c * 10^k] reads back as [c] and [k]. *)
Lemma textValue_fmtE (neg : bool) (c k : Z) :
  0 < c ->
  textValue (strconv.fmtE neg (strconv.FormatInt c)
               (Z.of_nat (String.length (strconv.FormatInt c)) + k)) = Some (neg, c, k).
Proof.
  intros Hc. destruct (FormatInt_digits c ltac:(lia)) as (Hd & Hne & Hnum).
  set (ds := strconv.FormatInt c) in *.
  assert (Hlen : (0 < String.length ds)%nat).
  { destruct ds; [congruence|]. simpl. lia. }
  set (nd := Z.of_nat (String.length ds)). set (dp := nd + k).
  set (exp := dp - 1).
  set (xs := (if Z.abs exp <? 10 then "0" else "") ++ strconv.FormatInt (Z.abs exp)).
  destruct (FormatInt_digits (Z.abs exp) ltac:(lia)) as (Hxd & _ & Hxnum).
  assert (Hxs : all_digits xs = true /\ num xs 0 = Z.abs exp).
  { unfold xs. rewrite all_digits_app, num_app, Hxd, Hxnum.
    destruct (Z.abs exp <? 10); (split; [reflexivity|]);
      [change (num "0" 0) with 0 | change (num "" 0) with 0]; lia. }
  unfold strconv.fmtE. fold nd dp exp. cbv zeta. fold exp. fold xs.
  rewrite (textValue_layout neg (1 <? String.length ds)%nat (substring 0 1 ds)
             (substring 1 (String.length ds - 1) ds)
             ("e" ++ (if exp <? 0 then "-" else "+") ++ xs)
             (if exp <? 0 then - num xs 0 else num xs 0)).
  - destruct Hxs as [_ Hxs]. rewrite Hxs.
    assert (Hx : (if exp <? 0 then - Z.abs exp else Z.abs exp) = exp)
      by (destruct (Z.ltb_spec exp 0); lia).
    rewrite Hx.
    destruct (Nat.ltb_spec 1 (String.length ds)) as [Hlong|Hshort].
    + rewrite substring_split by lia. rewrite Hnum.
      rewrite length_substring_from by lia.
      do 3 f_equal. unfold exp, dp, nd. lia.
    + rewrite app_empty_r, substring_all by lia. rewrite Hnum.
      change (Z.of_nat (String.length "")) with 0.
      do 3 f_equal. unfold exp, dp, nd. lia.
  - apply all_digits_substring. exact Hd.
  - apply substring_nonempty; [lia | exact Hne].
  - apply all_digits_substring. exact Hd.
  - right. exists (exp <? 0), xs. split; [reflexivity|]. split; [apply Hxs | reflexivity].
Qed.

(** The [%v] layout of [c * 10^k] reads back as that number. *)
Lemma textValue_fmtG (neg : bool) (c k : Z) :
  0 < c ->
  exists M E : Z,
    textValue (strconv.fmtG neg {| strconv.d_digits := c; strconv.d_exp := k |}) =
      Some (neg, M, E) /\
    (M = c /\ E = k \/ M = c * 10 ^ k /\ E = 0 /\ 0 <= k).
Proof.
  intros Hc. unfold strconv.fmtG. cbn [strconv.d_digits strconv.d_exp]. cbv zeta.
  destruct (_ || _).
  - exists c, k. split; [apply textValue_fmtE; exact Hc | left; split; reflexivity].
  - apply textValue_fmtF. exact Hc.
Qed.

(** *** The [float64] values *)

Lemma digits2_pos_bounds (m : positive) :
  2 ^ (Zpos (SpecFloat.digits2_pos m) - 1) <= Zpos m < 2 ^ Zpos (SpecFloat.digits2_pos m).
Proof.
  induction m as [m IH | m IH |]; cbn [SpecFloat.digits2_pos].
  - rewrite Pos2Z.inj_succ, Pos2Z.inj_xI.
    replace (Z.succ (Zpos (SpecFloat.digits2_pos m)) - 1)
      with (Z.succ (Zpos (SpecFloat.digits2_pos m) - 1)) by lia.
    rewrite !Z.pow_succ_r by lia.
    destruct IH as [IH1 IH2]. revert IH1 IH2.
    generalize (2 ^ (Zpos (SpecFloat.digits2_pos m) - 1)).
    generalize (2 ^ Zpos (SpecFloat.digits2_pos m)). intros a b IH1 IH2. lia.
  - rewrite Pos2Z.inj_succ. change (Zpos m~0) with (2 * Zpos m).
    replace (Z.succ (Zpos (SpecFloat.digits2_pos m)) - 1)
      with (Z.succ (Zpos (SpecFloat.digits2_pos m) - 1)) by lia.
    rewrite !Z.pow_succ_r by lia.
    destruct IH as [IH1 IH2]. revert IH1 IH2.
    generalize (2 ^ (Zpos (SpecFloat.digits2_pos m) - 1)).
    generalize (2 ^ Zpos (SpecFloat.digits2_pos m)). intros a b IH1 IH2. lia.
  - change (2 ^ (1 - 1)) with 1. change (2 ^ 1) with 2. lia.
Qed.

Lemma Prim2SF_binary64 (f : float) (s : bool) (m : positive) (e : Z) :
  Prim2SF f = S754_finite s m e -> binary64 (Zpos m) e.
Proof.
  intros Hf. pose proof (Prim2SF_valid f) as Hv. rewrite Hf in Hv.
  unfold valid_binary, SpecFloat.valid_binary, SpecFloat.bounded in Hv.
  apply andb_true_iff in Hv as [Hc _].
  unfold SpecFloat.canonical_mantissa, SpecFloat.fexp, SpecFloat.emin in Hc.
  apply Zeq_bool_eq in Hc.
  change prec with 53 in Hc. change emax with 1024 in Hc.
  change (3 - 1024 - 53) with (-1074) in Hc.
  pose proof (digits2_pos_bounds m) as [Hlo Hhi].
  set (d := Zpos (SpecFloat.digits2_pos m)) in *.
  unfold binary64. split; [|split; [lia|]].
  - split; [lia|].
    assert (d <= 53) by lia.
    pose proof (Z.pow_le_mono_r 2 d 53 ltac:(lia) ltac:(lia)). lia.
  - destruct (Z.eq_dec e (-1074)) as [->|Hne]; [right; reflexivity|left].
    assert (d = 53) as Hd by lia. rewrite Hd in Hlo. exact Hlo.
Qed.

(** *** The bounds of [identifies], as real numbers *)

Lemma IZR_pow (a b : Z) : 0 <= b -> IZR (a ^ b) = powerRZ (IZR a) b.
Proof.
  intros Hb. destruct b as [|p|p]; [reflexivity| |lia].
  apply Zpower_pos_powerRZ.
Qed.

Lemma powerRZ_max (x : R) (e : Z) :
  x <> 0%R -> powerRZ x (Z.max e 0) = (powerRZ x e * powerRZ x (Z.max (- e) 0))%R.
Proof. intros Hx. rewrite <- powerRZ_add by exact Hx. f_equal. lia. Qed.

Lemma scaled_real (n e2 k : Z) :
  IZR (strconv.scaled n e2 k) =
    (IZR n * powerRZ 2 e2 * powerRZ 10 (- k) * IZR (strconv.unit e2 k))%R.
Proof.
  unfold strconv.scaled, strconv.unit. rewrite !mult_IZR, !IZR_pow by lia.
  rewrite (powerRZ_max 2 e2), (powerRZ_max 10 (- k)) by lra.
  rewrite Z.opp_involutive. ring.
Qed.

Lemma powerRZ_opp_mul (x : R) (k : Z) :
  x <> 0%R -> (powerRZ x (- k) * powerRZ x k = 1)%R.
Proof. intros Hx. rewrite <- powerRZ_add by exact Hx. replace (- k + k) with 0 by lia. reflexivity. Qed.

Lemma unit_real_pos (e2 k : Z) : (0 < IZR (strconv.unit e2 k))%R.
Proof. apply IZR_lt. apply unit_pos. Qed.

(** [n * 2^e2 <= c * 10^k], read off the comparison of scaled integers. *)
Lemma within_lower (inclusive : bool) (n c e2 k : Z) :
  strconv.within inclusive (strconv.scaled n e2 k) (c * strconv.unit e2 k) = true ->
  (IZR n * powerRZ 2 e2 <= IZR c * powerRZ 10 k)%R /\
  (inclusive = false -> IZR n * powerRZ 2 e2 < IZR c * powerRZ 10 k)%R.
Proof.
  intros H.
  pose proof (unit_real_pos e2 k) as Hu.
  pose proof (powerRZ_lt 10 k ltac:(lra)) as Hp.
  pose proof (powerRZ_opp_mul 10 k ltac:(lra)) as Hpq.
  pose proof (scaled_real n e2 k) as Hs.
  set (A := (IZR n * powerRZ 2 e2)%R) in *.
  assert (Hkey : forall x y : R, (A * powerRZ 10 (- k) * x = y)%R -> True) by auto.
  destruct inclusive; cbn [strconv.within] in H.
  - apply Z.leb_le, IZR_le in H. rewrite mult_IZR, Hs in H.
    assert (Hle : (A * powerRZ 10 (- k) <= IZR c)%R).
    { apply (Rmult_le_reg_r (IZR (strconv.unit e2 k))); [exact Hu | exact H]. }
    split; [|discriminate].
    apply (Rmult_le_compat_r (powerRZ 10 k)) in Hle; [|lra].
    replace (A * powerRZ 10 (- k) * powerRZ 10 k)%R with A in Hle
      by (rewrite Rmult_assoc, Hpq; ring).
    exact Hle.
  - apply Z.ltb_lt, IZR_lt in H. rewrite mult_IZR, Hs in H.
    assert (Hlt : (A * powerRZ 10 (- k) < IZR c)%R).
    { apply (Rmult_lt_reg_r (IZR (strconv.unit e2 k))); [exact Hu | exact H]. }
    apply (Rmult_lt_compat_r (powerRZ 10 k)) in Hlt; [|lra].
    replace (A * powerRZ 10 (- k) * powerRZ 10 k)%R with A in Hlt
      by (rewrite Rmult_assoc, Hpq; ring).
    split; [lra | intros _; exact Hlt].
Qed.

Lemma within_upper (inclusive : bool) (n c e2 k : Z) :
  strconv.within inclusive (c * strconv.unit e2 k) (strconv.scaled n e2 k) = true ->
  (IZR c * powerRZ 10 k <= IZR n * powerRZ 2 e2)%R /\
  (inclusive = false -> IZR c * powerRZ 10 k < IZR n * powerRZ 2 e2)%R.
Proof.
  intros H.
  pose proof (unit_real_pos e2 k) as Hu.
  pose proof (powerRZ_lt 10 k ltac:(lra)) as Hp.
  pose proof (powerRZ_opp_mul 10 k ltac:(lra)) as Hpq.
  pose proof (scaled_real n e2 k) as Hs.
  set (A := (IZR n * powerRZ 2 e2)%R) in *.
  destruct inclusive; cbn [strconv.within] in H.
  - apply Z.leb_le, IZR_le in H. rewrite mult_IZR, Hs in H.
    assert (Hle : (IZR c <= A * powerRZ 10 (- k))%R).
    { apply (Rmult_le_reg_r (IZR (strconv.unit e2 k))); [exact Hu | exact H]. }
    split; [|discriminate].
    apply (Rmult_le_compat_r (powerRZ 10 k)) in Hle; [|lra].
    replace (A * powerRZ 10 (- k) * powerRZ 10 k)%R with A in Hle
      by (rewrite Rmult_assoc, Hpq; ring).
    exact Hle.
  - apply Z.ltb_lt, IZR_lt in H. rewrite mult_IZR, Hs in H.
    assert (Hlt : (IZR c < A * powerRZ 10 (- k))%R).
    { apply (Rmult_lt_reg_r (IZR (strconv.unit e2 k))); [exact Hu | exact H]. }
    apply (Rmult_lt_compat_r (powerRZ 10 k)) in Hlt; [|lra].
    replace (A * powerRZ 10 (- k) * powerRZ 10 k)%R with A in Hlt
      by (rewrite Rmult_assoc, Hpq; ring).
    split; [lra | intros _; exact Hlt].
Qed.

(** A decimal that identifies [m * 2^e] and one that identifies
    [m' * 2^e'], denoting the same real, with [e <= e']: the lower bound of
    the second interval is not above the upper bound of the first, and
    below it if one of the two bounds is excluded. *)
Lemma identifies_overlap (m e m' e' : Z) (d d' : strconv.decimal) :
  strconv.identifies m e d -> strconv.identifies m' e' d' ->
  decimal_real (strconv.d_digits d) (strconv.d_exp d) =
    decimal_real (strconv.d_digits d') (strconv.d_exp d') ->
  e <= e' ->
  strconv.lowerBound m' e' * 2 ^ (e' - e) <= strconv.upperBound m /\
  (Z.even m && Z.even m' = false ->
   strconv.lowerBound m' e' * 2 ^ (e' - e) < strconv.upperBound m) /\
  strconv.lowerBound m e <= strconv.upperBound m' * 2 ^ (e' - e) /\
  (Z.even m && Z.even m' = false ->
   strconv.lowerBound m e < strconv.upperBound m' * 2 ^ (e' - e)).
Proof.
  intros [Hlo Hup] [Hlo' Hup'] Hval He. unfold decimal_real in Hval.
  apply within_lower in Hlo as [Hlo Hlos], Hlo' as [Hlo' Hlos'].
  apply within_upper in Hup as [Hup Hups], Hup' as [Hup' Hups'].
  rewrite <- Hval in *.
  set (V := (IZR (strconv.d_digits d) * powerRZ 10 (strconv.d_exp d))%R) in *.
  assert (Hpow : powerRZ 2 (e' - 2) = (powerRZ 2 (e - 2) * IZR (2 ^ (e' - e)))%R).
  { rewrite IZR_pow by lia. rewrite <- powerRZ_add by lra. f_equal. lia. }
  rewrite Hpow in *.
  pose proof (powerRZ_lt 2 (e - 2) ltac:(lra)) as Ha.
  set (a := powerRZ 2 (e - 2)) in *.
  set (L := strconv.lowerBound m e) in *. set (U := strconv.upperBound m) in *.
  set (L' := strconv.lowerBound m' e') in *. set (U' := strconv.upperBound m') in *.
  set (T := 2 ^ (e' - e)) in *.
  assert (H1 : (IZR (L' * T) * a <= IZR U * a)%R) by (rewrite mult_IZR; lra).
  assert (H2 : (IZR L * a <= IZR (U' * T) * a)%R) by (rewrite mult_IZR; lra).
  apply Rmult_le_reg_r in H1, H2; try exact Ha. apply le_IZR in H1, H2.
  split; [exact H1|]. split; [|split; [exact H2|]].
  - intros Hodd. assert (H3 : (IZR (L' * T) * a < IZR U * a)%R).
    { rewrite mult_IZR. apply andb_false_iff in Hodd as [Hodd | Hodd].
      - specialize (Hups Hodd). lra.
      - specialize (Hlos' Hodd). lra. }
    apply Rmult_lt_reg_r in H3; [|exact Ha]. apply lt_IZR in H3. exact H3.
  - intros Hodd. assert (H3 : (IZR L * a < IZR (U' * T) * a)%R).
    { rewrite mult_IZR. apply andb_false_iff in Hodd as [Hodd | Hodd].
      - specialize (Hlos Hodd). lra.
      - specialize (Hups' Hodd). lra. }
    apply Rmult_lt_reg_r in H3; [|exact Ha]. apply lt_IZR in H3. exact H3.
Qed.

(** The intervals of two different [float64] values do not meet. *)
Lemma binary64_apart (m e m' e' : Z) :
  binary64 m e -> binary64 m' e' -> e <= e' ->
  strconv.lowerBound m' e' * 2 ^ (e' - e) <= strconv.upperBound m ->
  (Z.even m && Z.even m' = false ->
   strconv.lowerBound m' e' * 2 ^ (e' - e) < strconv.upperBound m) ->
  strconv.lowerBound m e <= strconv.upperBound m' * 2 ^ (e' - e) ->
  (Z.even m && Z.even m' = false ->
   strconv.lowerBound m e < strconv.upperBound m' * 2 ^ (e' - e)) ->
  m = m' /\ e = e'.
Proof.
  intros (Hm & He & Hn) (Hm' & He' & Hn') Hee H1 H1s H2 H2s.
  unfold strconv.upperBound in *.
  change (2 ^ 53) with 9007199254740992 in *.
  change (2 ^ 52) with 4503599627370496 in *.
  destruct (Z.eq_dec e e') as [<- | Hne].
  - split; [|reflexivity].
    rewrite Z.sub_diag in *. change (2 ^ 0) with 1 in *.
    assert (Hl : 4 * m - 2 <= strconv.lowerBound m e)
      by (unfold strconv.lowerBound; case_match; lia).
    assert (Hl' : 4 * m' - 2 <= strconv.lowerBound m' e)
      by (unfold strconv.lowerBound; case_match; lia).
    destruct (Z.even m && Z.even m') eqn:Heven.
    + apply andb_true_iff in Heven as [Hev Hev'].
      apply Z.even_spec in Hev as [q ->], Hev' as [q' ->]. lia.
    + specialize (H1s eq_refl). specialize (H2s eq_refl). lia.
  - exfalso.
    assert (Hnorm : 4503599627370496 <= m') by lia.
    assert (HT : 2 <= 2 ^ (e' - e)).
    { change 2 with (2 ^ 1) at 1. apply Z.pow_le_mono_r; lia. }
    set (T := 2 ^ (e' - e)) in *.
    assert (Hl' : strconv.lowerBound m' e' =
                  if m' =? 4503599627370496 then 4 * m' - 1 else 4 * m' - 2).
    { unfold strconv.lowerBound, strconv.mantbits, strconv.minexp.
      change (2 ^ 52) with 4503599627370496.
      destruct (m' =? 4503599627370496); [|reflexivity].
      destruct (Z.ltb_spec (-1074) e'); [reflexivity | lia]. }
    rewrite Hl' in *.
    destruct (Z.eqb_spec m' 4503599627370496) as [-> | Hbig].
    + assert (m = 9007199254740991) as -> by nia.
      assert (Hs : Z.even 9007199254740991 && Z.even 4503599627370496 = false) by reflexivity.
      specialize (H1s Hs). nia.
    + nia.
Qed.

(** *** The text identifies the [float64] *)

Lemma scaled_pos (n e2 k : Z) : 0 < n -> 0 < strconv.scaled n e2 k.
Proof.
  intros Hn. unfold strconv.scaled.
  apply Z.mul_pos_pos; [apply Z.mul_pos_pos; [exact Hn|]|]; apply Z.pow_pos_nonneg; lia.
Qed.

Lemma identifies_pos (m e : Z) (d : strconv.decimal) :
  0 < m -> strconv.identifies m e d -> 0 < strconv.d_digits d.
Proof.
  intros Hm [Hlo _].
  assert (Hl : 0 < strconv.lowerBound m e) by (unfold strconv.lowerBound; case_match; lia).
  pose proof (scaled_pos _ (e - 2) (strconv.d_exp d) Hl) as Hs.
  pose proof (unit_pos (e - 2) (strconv.d_exp d)) as Hu.
  assert (Hle : strconv.scaled (strconv.lowerBound m e) (e - 2) (strconv.d_exp d) <=
                strconv.d_digits d * strconv.unit (e - 2) (strconv.d_exp d)).
  { destruct (Z.even m); cbn [strconv.within] in Hlo;
      [apply Z.leb_le in Hlo | apply Z.ltb_lt in Hlo]; lia. }
  nia.
Qed.

(** The text of a finite nonzero [float64] reads back as its sign and a
    decimal that identifies it. *)
Lemma v_float64_text (s : bool) (m : positive) (e : Z) :
  exists (d : strconv.decimal) (M E : Z),
    strconv.identifies (Zpos m) e d /\
    textValue (strconv.fmtG s (strconv.roundShortest (Zpos m) e)) = Some (s, M, E) /\
    0 < M /\
    decimal_real M E = decimal_real (strconv.d_digits d) (strconv.d_exp d).
Proof.
  pose proof (roundShortest_identifies (Zpos m) e) as Hid.
  pose proof (identifies_pos (Zpos m) e _ (Pos2Z.is_pos m) Hid) as Hc.
  destruct (strconv.roundShortest (Zpos m) e) as [c k] eqn:Hd.
  cbn [strconv.d_digits] in Hc.
  destruct (textValue_fmtG s c k Hc) as (M & E & Ht & [[-> ->] | (-> & -> & Hk)]).
  - exists {| strconv.d_digits := c; strconv.d_exp := k |}, c, k. auto.
  - exists {| strconv.d_digits := c; strconv.d_exp := k |}, (c * 10 ^ k), 0.
    split; [exact Hid|]. split; [exact Ht|]. split.
    + apply Z.mul_pos_pos; [exact Hc | apply Z.pow_pos_nonneg; lia].
    + unfold decimal_real. cbn [strconv.d_digits strconv.d_exp].
      rewrite mult_IZR, IZR_pow by exact Hk. rewrite powerRZ_O. ring.
Qed.

(** Two [float64] values with the same [%v] text are the same value. *)
Lemma v_float64_inj (x y : float) : fmt.v_float64 x = fmt.v_float64 y -> x = y.
Proof.
  intros H. apply Prim2SF_inj. unfold fmt.v_float64, strconv.FormatFloat_g in H.
  destruct (Prim2SF x) as [s|s| |s m e] eqn:Hx;
    destruct (Prim2SF y) as [s'|s'| |s' m' e'] eqn:Hy;
    try (destruct s; destruct s'; (reflexivity || discriminate H));
    try (destruct s; (reflexivity || discriminate H));
    try (destruct s'; (reflexivity || discriminate H));
    try reflexivity.
  all: apply (f_equal textValue) in H.
  all: try (destruct (v_float64_text s m e) as (d & M & E & Hid & Ht & HM & Hval);
            rewrite Ht in H).
  all: try (destruct (v_float64_text s' m' e') as (d' & M' & E' & Hid' & Ht' & HM' & Hval');
            rewrite Ht' in H).
  all: try (destruct s; vm_compute in H; first [discriminate H | injection H as ? ? ?; lia]).
  all: try (destruct s'; vm_compute in H; first [discriminate H | injection H as ? ? ?; lia]).
  injection H as -> -> ->.
  assert (Hsame : decimal_real (strconv.d_digits d) (strconv.d_exp d) =
                  decimal_real (strconv.d_digits d') (strconv.d_exp d'))
    by (rewrite <- Hval, <- Hval'; reflexivity).
  pose proof (Prim2SF_binary64 x _ _ _ Hx) as Hb.
  pose proof (Prim2SF_binary64 y _ _ _ Hy) as Hb'.
  destruct (Z.le_ge_cases e e') as [Hle | Hge].
  - destruct (identifies_overlap _ _ _ _ _ _ Hid Hid' Hsame Hle) as (H1 & H2 & H3 & H4).
    destruct (binary64_apart _ _ _ _ Hb Hb' Hle H1 H2 H3 H4) as [Hm He].
    injection Hm as ->. subst e'. reflexivity.
  - destruct (identifies_overlap _ _ _ _ _ _ Hid' Hid (eq_sym Hsame) Hge) as (H1 & H2 & H3 & H4).
    destruct (binary64_apart _ _ _ _ Hb' Hb Hge H1 H2 H3 H4) as [Hm He].
    injection Hm as ->. subst e'. reflexivity.
Qed.

(** ** Comparisons of [float64] values with the two thresholds *)

Section Thresholds.

Local Open Scope float_scope.

Lemma Prim2SF_10 : Prim2SF 10 = S754_finite false 5629499534213120 (-49).
Proof. reflexivity. Qed.

Lemma Prim2SF_25 : Prim2SF 25 = S754_finite false 7036874417766400 (-48).
Proof. reflexivity. Qed.

(** [<] and [<=] never hold the same way round and the other. *)
Lemma SFltb_not_SFleb (x y : spec_float) :
  SFltb x y = true -> SFleb y x = false.
Proof.
  unfold SFltb, SFleb.
  destruct x as [sx|sx| |sx mx ex], y as [sy|sy| |sy my ey]; simpl;
    try destruct sx; try destruct sy; try discriminate; try reflexivity.
  all: fold (Pos.compare mx my); fold (Pos.compare my mx);
    rewrite (Z.compare_antisym ex ey), (Pos.compare_antisym mx my);
    destruct (ex ?= ey)%Z; simpl; try discriminate; try reflexivity;
    destruct (mx ?= my)%positive; simpl; try discriminate; reflexivity.
Qed.

Lemma ltb_not_leb (x y : float) : (x <? y) = true -> (y <=? x) = false.
Proof. rewrite ltb_spec, leb_spec. apply SFltb_not_SFleb. Qed.

(** A temperature above 25 is not at most 10. *)
Lemma above_25_not_leb_10 (t : float) : (25 <? t) = true -> (t <=? 10) = false.
Proof.
  rewrite ltb_spec, leb_spec, Prim2SF_10, Prim2SF_25.
  unfold SFltb, SFleb, SFcompare.
  destruct (Prim2SF t) as [s|s| |s m e]; try destruct s;
    try discriminate; try reflexivity.
  destruct (Z.compare_spec (-48) e) as [<- | Hlt | Hgt]; try discriminate.
  - reflexivity.
  - intros _. destruct (Z.compare_spec e (-49)); try lia; reflexivity.
Qed.

Lemma nan_unordered (x : float) :
  (nan <=? x) = false /\ (x <=? nan) = false /\
  (nan <? x) = false /\ (x <? nan) = false.
Proof.
  rewrite !leb_spec, !ltb_spec.
  change (Prim2SF nan) with S754_nan.
  unfold SFleb, SFltb. destruct (Prim2SF x); simpl; auto.
Qed.

End Thresholds.

(** ** C2 and C10: classification *)

(** C2: a temperature at most 10 is "cold"; one above 10 and at most 25 is
    "moderate"; one above 25 is "hot".  The comparisons are those of
    [float64].  Both thresholds belong to the lower class, as the values
    10, 10.01, 25 and 25.01 show. *)
Theorem classifyWeather_ranges (t : float) :
  ((t <=? 10)%float = true -> classifyWeather t = "cold") /\
  ((10 <? t)%float = true -> (t <=? 25)%float = true ->
   classifyWeather t = "moderate") /\
  ((25 <? t)%float = true -> classifyWeather t = "hot") /\
  classifyWeather 10 = "cold" /\ classifyWeather 10.01 = "moderate" /\
  classifyWeather 25 = "moderate" /\ classifyWeather 25.01 = "hot".
Proof.
  unfold classifyWeather. repeat split.
  - intros ->. reflexivity.
  - intros Hgt ->. rewrite (ltb_not_leb _ _ Hgt). reflexivity.
  - intros Hgt. rewrite (above_25_not_leb_10 _ Hgt), (ltb_not_leb _ _ Hgt). reflexivity.
Qed.

(** C2, at a temperature of each class. *)
Lemma classifyWeather_ranges_witness :
  classifyWeather (-3.5) = "cold" /\ classifyWeather 15.3 = "moderate" /\
  classifyWeather 31 = "hot".
Proof.
  split; [|split].
  - apply (proj1 (classifyWeather_ranges (-3.5))). reflexivity.
  - apply (proj1 (proj2 (classifyWeather_ranges 15.3))); reflexivity.
  - apply (proj1 (proj2 (proj2 (classifyWeather_ranges 31)))). reflexivity.
Defined.

(** C10: [classifyWeather] is defined on every [float64]; its values are
    the three strings "cold", "moderate" and "hot", each of them taken; NaN,
    which no ordering comparison holds for, is classified "hot". *)
Theorem classifyWeather_total :
  (forall t : float, exists w : string, classifyWeather t = w /\
     (w = "cold" \/ w = "moderate" \/ w = "hot")) /\
  (exists t : float, classifyWeather t = "cold") /\
  (exists t : float, classifyWeather t = "moderate") /\
  (exists t : float, classifyWeather t = "hot") /\
  (forall x : float, (nan <=? x)%float = false /\ (x <=? nan)%float = false /\
                     (nan <? x)%float = false /\ (x <? nan)%float = false) /\
  classifyWeather nan = "hot".
Proof.
  split; [|split; [|split; [|split; [|split]]]].
  - intros t. unfold classifyWeather.
    destruct (t <=? 10)%float; [eauto|].
    destruct (t <=? 25)%float; eauto.
  - exists 0%float. reflexivity.
  - exists 20%float. reflexivity.
  - exists 30%float. reflexivity.
  - apply nan_unordered.
  - reflexivity.
Qed.

(** ** C4: visibility *)

(** [int(f)] drops the fraction: it truncates toward zero. *)
Lemma trunc_integer_part (f : float) (s : bool) (m : positive) (e : Z) :
  Prim2SF f = S754_finite s m e ->
  exists n, trunc f = Some n /\ integer_part s m e n.
Proof.
  intros Hf. unfold trunc. rewrite Hf.
  destruct (Z.leb_spec 0 e) as [He|He].
  - exists (if s then - Z.shiftl (Z.pos m) e else Z.shiftl (Z.pos m) e).
    split; [reflexivity|]. rewrite Z.shiftl_mul_pow2 by lia.
    assert (0 < 2 ^ e) by (apply Z.pow_pos_nonneg; lia).
    assert (0 < Z.pos m * 2 ^ e) by lia.
    unfold integer_part. rewrite (Z.max_l e 0), (Z.max_r (- e) 0) by lia.
    change (2 ^ 0) with 1. destruct s; split; lia.
  - exists (if s then - Z.shiftr (Z.pos m) (- e) else Z.shiftr (Z.pos m) (- e)).
    split; [reflexivity|]. rewrite Z.shiftr_div_pow2 by lia.
    assert (Hp : 0 < 2 ^ (- e)) by (apply Z.pow_pos_nonneg; lia).
    pose proof (Z.div_pos (Z.pos m) (2 ^ (- e)) ltac:(lia) Hp) as Hq.
    pose proof (Z.mul_div_le (Z.pos m) (2 ^ (- e)) Hp) as Hle.
    pose proof (Z.mul_succ_div_gt (Z.pos m) (2 ^ (- e)) Hp) as Hgt.
    unfold integer_part. rewrite (Z.max_r e 0), (Z.max_l (- e) 0) by lia.
    change (2 ^ 0) with 1.
    destruct s; split; try lia;
      rewrite ?Z.abs_opp, Z.abs_eq by lia; lia.
Qed.

Lemma float64_to_int_finite (f : float) (s : bool) (m : positive) (e : Z) :
  Prim2SF f = S754_finite s m e ->
  exists n, integer_part s m e n /\
    (minInt <= n <= maxInt -> float64_to_int f = n) /\
    (~ minInt <= n <= maxInt -> float64_to_int f = minInt).
Proof.
  intros Hf. destruct (trunc_integer_part f s m e Hf) as (n & Hn & Hpart).
  exists n. split; [exact Hpart|]. unfold float64_to_int. rewrite Hn.
  destruct (Z.leb_spec minInt n), (Z.leb_spec n maxInt); simpl; split; intros; lia.
Qed.

Lemma float64_to_int_zero (f : float) (s : bool) :
  Prim2SF f = S754_zero s -> float64_to_int f = 0.
Proof. intros Hf. unfold float64_to_int, trunc. rewrite Hf. reflexivity. Qed.

Lemma float64_to_int_special (f : float) :
  Prim2SF f = S754_nan \/ (exists s, Prim2SF f = S754_infinity s) ->
  float64_to_int f = minInt.
Proof.
  intros [Hf | [s Hf]]; unfold float64_to_int, trunc; rewrite Hf; reflexivity.
Qed.

(** C4 as stated fails above the [int] range: 1e19 metres are 1e16
    kilometres, and the text is "-9223372036854775 KM". *)
Lemma extractVisibility_overflow :
  trunc 1e19 = Some (10 ^ 19) /\
  extractVisibility {[ "visibility" := VNum 1e19 ]} = Return "-9223372036854775 KM" /\
  ~ (forall (v : float) (n : Z), trunc v = Some n ->
       extractVisibility {[ "visibility" := VNum v ]} =
         Return (fmt.v_int (Z.quot n 1000) ++ " KM")).
Proof.
  split; [vm_compute; reflexivity|]. split; [vm_compute; reflexivity|].
  intros H. specialize (H 1e19%float (10 ^ 19) ltac:(vm_compute; reflexivity)).
  vm_compute in H. discriminate.
Qed.

(** C4, amended: for a finite metres value [v = ± m * 2^e] the fraction is
    dropped, giving the integer [n] of the same sign with
    [|n| <= |v| < |n| + 1].  If [n] fits the 64-bit [int], the text is
    [n / 1000] with the quotient truncated toward zero (neither rounded nor
    floored), followed by " KM"; 0, 999, 1000, 1999 and 10000 metres give
    "0 KM", "0 KM", "1 KM", "1 KM" and "10 KM", and 1999.9, -1999, -1999.9,
    -999.9, 0.9 and -0.9 metres show the direction of both truncations.  If
    [n] does not fit, or [v] is NaN or infinite, the conversion yields the
    minimum [int] and the text is "-9223372036854775 KM". *)
Theorem extractVisibility_truncates :
  (forall (data : gmap string value) (v : float),
     data !! "visibility" = Some (VNum v) ->
     (forall s m e, Prim2SF v = S754_finite s m e ->
        exists n, integer_part s m e n /\
          (minInt <= n <= maxInt ->
           extractVisibility data = Return (fmt.v_int (Z.quot n 1000) ++ " KM")) /\
          (~ minInt <= n <= maxInt ->
           extractVisibility data = Return "-9223372036854775 KM")) /\
     (forall s, Prim2SF v = S754_zero s -> extractVisibility data = Return "0 KM") /\
     (Prim2SF v = S754_nan \/ (exists s, Prim2SF v = S754_infinity s) ->
      extractVisibility data = Return "-9223372036854775 KM")) /\
  (forall n : Z,
     Z.abs (Z.quot n 1000) * 1000 <= Z.abs n < Z.abs (Z.quot n 1000) * 1000 + 1000 /\
     0 <= n * Z.quot n 1000) /\
  (fun v => extractVisibility {[ "visibility" := VNum v ]}) <$>
    [0; 999; 1000; 1999; 10000]%float =
    [Return "0 KM"; Return "0 KM"; Return "1 KM"; Return "1 KM"; Return "10 KM"] /\
  (fun v => extractVisibility {[ "visibility" := VNum v ]}) <$>
    [1999.9; -1999; -1999.9; -999.9; 0.9; -0.9]%float =
    [Return "1 KM"; Return "-1 KM"; Return "-1 KM"; Return "0 KM"; Return "0 KM";
     Return "0 KM"].
Proof.
  split; [|split; [|split]].
  - intros data v Hdata.
    assert (Hrun : extractVisibility data =
                   Return (fmt.v_int (Z.quot (float64_to_int v) 1000) ++ " KM")).
    { unfold extractVisibility, index. rewrite Hdata. reflexivity. }
    split; [|split].
    + intros s m e Hv. destruct (float64_to_int_finite v s m e Hv) as (n & Hpart & Hin & Hout).
      exists n. split; [exact Hpart|]. split; intros Hn; rewrite Hrun.
      * rewrite (Hin Hn). reflexivity.
      * rewrite (Hout Hn). vm_compute. reflexivity.
    + intros s Hv. rewrite Hrun, (float64_to_int_zero v s Hv). vm_compute. reflexivity.
    + intros Hv. rewrite Hrun, (float64_to_int_special v Hv). vm_compute. reflexivity.
  - intros n. Z.to_euclidean_division_equations. nia.
  - vm_compute. reflexivity.
  - vm_compute. reflexivity.
Qed.

(** C4, at the fixture's 8000 metres. *)
Lemma extractVisibility_truncates_witness :
  extractVisibility fixture = Return "8 KM".
Proof.
  destruct (proj1 (proj1 extractVisibility_truncates fixture 8000%float
                     ltac:(vm_compute; reflexivity))
              false 8796093022208000%positive (-40) ltac:(vm_compute; reflexivity))
    as (n & [Hsign Hpart] & Hin & _).
  change (2 ^ Z.max (- -40) 0) with 1099511627776 in Hpart.
  change (2 ^ Z.max (-40) 0) with 1 in Hpart.
  assert (n = 8000) as -> by lia.
  apply Hin. vm_compute. split; discriminate.
Defined.

(** ** C5: the fixture *)

(** C5: for the well-formed fixture (description "clear sky", temperature
    15.3, visibility 8000, wind speed 3.1, wind direction 180, cloud
    coverage 40, sunrise 1700000000, sunset 1700040000), whatever the
    coordinates and the latency, [getWeather] returns, with no error, the
    summary with weather type "moderate", temperature "15.3 Celsius",
    visibility "8 KM", wind speed "3.1 meter/sec", wind direction
    "180 degrees", cloud coverage "40 percentage", and [time.Unix] of the two
    timestamps as sunrise and sunset. *)
Theorem getWeather_fixture (l : Z) (lat lon : float) :
  getWeather (provider l fixture) lat lon =
  Return (Some {| WeatherDescription := "clear sky";
                  Temperature := "15.3 Celsius";
                  WeatherType := "moderate";
                  Visibility := "8 KM";
                  WindSpeed := "3.1 meter/sec";
                  WindDirection := "180 degrees";
                  CloudCoverage := "40 percentage";
                  Sunrise := time.Unix 1700000000 0;
                  Sunset := time.Unix 1700040000 0 |}, None).
Proof.
  pose proof (getWeather_decoded (provider l fixture) lat lon fixture eq_refl) as H.
  replace (readings_of fixture) with
    (Some {| description := "clear sky"; temp := 15.3; visibility_m := 8000;
             wind_speed := 3.1; wind_deg := 180; clouds_all := 40;
             sunrise_s := 1700000000; sunset_s := 1700040000 |}) in H
    by (vm_compute; reflexivity).
  rewrite H. vm_compute. reflexivity.
Qed.

(** ** C1: a provider response without the [wind] key *)

(** C1 (the code departs from the claim): the fixture without its [wind]
    key makes [extractWindInfo] panic inside the goroutine of
    [getWeatherWithContext].  When the provider answers within the deadline
    the process ends and no response is written; when it answers after the
    deadline the handler has responded 500 and the process ends when the
    answer arrives. *)
Theorem WeatherHandler_missing_wind :
  getWeather (provider 120000000 (delete "wind" fixture)) 37.7749 (-122.4194) =
    Panic (InterfaceConversion KNil KMap) /\
  WeatherHandler (provider 120000000 (delete "wind" fixture))
    (request "37.7749" "-122.4194") =
    [Exits 120000000 (InterfaceConversion KNil KMap)] /\
  WeatherHandler (provider 6000000000 (delete "wind" fixture))
    (request "37.7749" "-122.4194") =
    [Responds 5000000000
       (http.Error "Failed to fetch weather data" http.StatusInternalServerError)
       (Some (6000000000, InterfaceConversion KNil KMap))].
Proof. repeat split; vm_compute; reflexivity. Qed.

(** ** C6 and C7: the handler *)

(** The handler reads nothing of the request but the first [lat] and the
    first [lon] parameter. *)
Lemma WeatherHandler_reads_lat_lon (net : Network) (r r' : http.Request) :
  url.Get (http.Query r') "lat" = url.Get (http.Query r) "lat" ->
  url.Get (http.Query r') "lon" = url.Get (http.Query r) "lon" ->
  WeatherHandler net r' = WeatherHandler net r.
Proof. unfold WeatherHandler. intros -> ->. reflexivity. Qed.

(** A missing parameter reads as the empty string, which is no number. *)
Lemma Get_missing (v : url.Values) (key : string) :
  v !! key = None -> url.Get v key = "".
Proof. unfold url.Get. intros ->. reflexivity. Qed.

Lemma ParseFloat_empty : strconv.ParseFloat "" = (0%float, Some strconv.ErrSyntax).
Proof. reflexivity. Qed.

(** C6: when [lat] is missing or [ParseFloat] rejects it, the response is
    400 with the message "Invalid latitude", whatever [lon] and the provider
    are: neither is looked at.  When [lat] parses and [lon] is missing or
    rejected, the response is 400 with the message "Invalid longitude". *)
Theorem WeatherHandler_bad_parameter (net : Network) (r : http.Request) :
  let lat := strconv.ParseFloat (url.Get (http.Query r) "lat") in
  let lon := strconv.ParseFloat (url.Get (http.Query r) "lon") in
  let bad_request (message : string) :=
    [Responds 0 {| http.StatusCode := 400;
                   http.Body := http.PlainText (fmt.ln message) |} None] in
  (lat.2 <> None -> WeatherHandler net r = bad_request "Invalid latitude") /\
  (http.Query r !! "lat" = None -> WeatherHandler net r = bad_request "Invalid latitude") /\
  (lat.2 <> None -> forall (net' : Network) (r' : http.Request),
     url.Get (http.Query r') "lat" = url.Get (http.Query r) "lat" ->
     WeatherHandler net' r' = WeatherHandler net r) /\
  (lat.2 = None -> lon.2 <> None ->
   WeatherHandler net r = bad_request "Invalid longitude") /\
  (lat.2 = None -> http.Query r !! "lon" = None ->
   WeatherHandler net r = bad_request "Invalid longitude").
Proof.
  cbv zeta. unfold WeatherHandler.
  split; [|split; [|split; [|split]]].
  - destruct (strconv.ParseFloat (url.Get (http.Query r) "lat")) as [lat [e|]];
      [reflexivity | intros []; reflexivity].
  - intros Hmiss. rewrite (Get_missing _ _ Hmiss). reflexivity.
  - intros Hlat net' r' ->.
    destruct (strconv.ParseFloat (url.Get (http.Query r) "lat")) as [lat [e|]];
      [reflexivity | destruct Hlat; reflexivity].
  - destruct (strconv.ParseFloat (url.Get (http.Query r) "lat")) as [lat [e|]];
      [discriminate|]. intros _.
    destruct (strconv.ParseFloat (url.Get (http.Query r) "lon")) as [lon [e|]];
      [reflexivity | intros []; reflexivity].
  - destruct (strconv.ParseFloat (url.Get (http.Query r) "lat")) as [lat [e|]];
      [discriminate|]. intros _ Hmiss.
    rewrite (Get_missing _ _ Hmiss). reflexivity.
Qed.

(** C6, at [GET /weather?lat=abc&lon=5] and at [GET /weather?lat=5&lon=abc]. *)
Lemma WeatherHandler_bad_parameter_witness :
  WeatherHandler (provider 0 fixture) (request "abc" "5") =
    [Responds 0 {| http.StatusCode := 400;
                   http.Body := http.PlainText (fmt.ln "Invalid latitude") |} None] /\
  WeatherHandler (provider 0 fixture) (request "5" "abc") =
    [Responds 0 {| http.StatusCode := 400;
                   http.Body := http.PlainText (fmt.ln "Invalid longitude") |} None].
Proof.
  split.
  - apply (proj1 (WeatherHandler_bad_parameter (provider 0 fixture) (request "abc" "5"))).
    vm_compute. discriminate.
  - apply (proj1 (proj2 (proj2 (proj2
      (WeatherHandler_bad_parameter (provider 0 fixture) (request "5" "abc")))))).
    + vm_compute. reflexivity.
    + vm_compute. discriminate.
Defined.

(** C7: the deadline is 5 seconds for every request.  When both parameters
    parse and the provider takes longer than that, the one run of the
    request responds 500 with "Failed to fetch weather data" at the 5th
    second, before [getWeather] is done; a panic [getWeather] ends in is
    still to come.  Nothing else in the request changes the run. *)
Theorem WeatherHandler_deadline (net : Network) (r : http.Request) (lat lon : float) :
  strconv.ParseFloat (url.Get (http.Query r) "lat") = (lat, None) ->
  strconv.ParseFloat (url.Get (http.Query r) "lon") = (lon, None) ->
  5 * time.Second < getWeather_elapsed net lat lon ->
  WeatherHandler net r =
    [Responds 5000000000
       {| http.StatusCode := 500;
          http.Body := http.PlainText (fmt.ln "Failed to fetch weather data") |}
       match getWeather net lat lon with
       | Panic p => Some (getWeather_elapsed net lat lon, p)
       | Return _ => None
       end] /\
  5000000000 < getWeather_elapsed net lat lon /\
  forall r' : http.Request,
    url.Get (http.Query r') "lat" = url.Get (http.Query r) "lat" ->
    url.Get (http.Query r') "lon" = url.Get (http.Query r) "lon" ->
    WeatherHandler net r' = WeatherHandler net r.
Proof.
  intros Hlat Hlon Hslow. split; [|split].
  - unfold WeatherHandler, getWeatherWithContext. rewrite Hlat, Hlon.
    change (context.Deadline (context.WithTimeout (5 * time.Second)))
      with 5000000000 in *.
    change (5 * time.Second) with 5000000000 in Hslow.
    destruct (Z.leb_spec 5000000000 (getWeather_elapsed net lat lon)); [|lia].
    destruct (Z.leb_spec (getWeather_elapsed net lat lon) 5000000000); [lia|].
    reflexivity.
  - exact Hslow.
  - intros r'. apply WeatherHandler_reads_lat_lon.
Qed.

(** C7, at a provider that takes 6 seconds. *)
Lemma WeatherHandler_deadline_witness :
  WeatherHandler (provider 6000000000 fixture) (request "37.7749" "-122.4194") =
    [Responds 5000000000
       {| http.StatusCode := 500;
          http.Body := http.PlainText (fmt.ln "Failed to fetch weather data") |}
       None].
Proof.
  refine (eq_trans (proj1 (WeatherHandler_deadline (provider 6000000000 fixture)
            (request "37.7749" "-122.4194") 37.7749 (-122.4194) _ _ _)) _).
  - vm_compute. reflexivity.
  - vm_compute. reflexivity.
  - vm_compute. reflexivity.
  - vm_compute. reflexivity.
Defined.

(** ** C8: all or nothing *)

Lemma summary_populated (r : readings) : populated r (summary r).
Proof.
  unfold populated, summary; simpl.
  repeat split; try (apply append_nonempty; discriminate).
  unfold classifyWeather.
  destruct (temp r <=? 10)%float; [auto|].
  destruct (temp r <=? 25)%float; auto.
Qed.

(** The three ways [getWeather] can end. *)
Lemma getWeather_cases (net : Network) (lat lon : float) :
  (exists p, getWeather net lat lon = Panic p) \/
  (exists err, getWeather net lat lon = Return (None, Some err)) \/
  (exists data r,
     outcome (net (getWeather_url lat lon)) = BodyDecodes data /\
     readings_of data = Some r /\
     getWeather net lat lon = Return (Some (summary r), None)).
Proof.
  destruct (outcome (net (getWeather_url lat lon))) as [err|err|data] eqn:Hnet.
  - right; left. exists err. apply getWeather_failed. auto.
  - right; left. exists err. apply getWeather_failed. auto.
  - pose proof (getWeather_decoded net lat lon data Hnet) as H.
    destruct (readings_of data) as [r|] eqn:Hr.
    + right; right. exists data, r. auto.
    + left. exact H.
Qed.

(** C8: [getWeather] panics (no result), or returns an error and no
    summary, or returns no error and the summary whose every field is
    computed from the provider's document; [getWeatherWithContext] hands on
    the same, or the deadline error and no summary, or the process ends.  A
    summary is never paired with an error, and never partly filled. *)
Theorem getWeather_all_or_nothing (net : Network) (lat lon : float) :
  let complete (d : WeatherData) :=
    exists data r,
      outcome (net (getWeather_url lat lon)) = BodyDecodes data /\
      readings_of data = Some r /\ d = summary r /\ populated r d in
  match getWeather net lat lon with
  | Panic _ => True
  | Return (None, Some _) => True
  | Return (Some d, None) => complete d
  | Return (Some _, Some _) | Return (None, None) => False
  end /\
  forall (ctx : context.Context) (dl : delivery),
    In dl (getWeatherWithContext ctx net lat lon) ->
    match dl with
    | ProcessExits _ _ => True
    | Returns _ None (Some _) _ => True
    | Returns _ (Some d) None _ => complete d
    | Returns _ (Some _) (Some _) _ | Returns _ None None _ => False
    end.
Proof.
  cbv zeta.
  assert (match getWeather net lat lon with
          | Panic _ => True
          | Return (None, Some _) => True
          | Return (Some d, None) =>
              exists data r,
                outcome (net (getWeather_url lat lon)) = BodyDecodes data /\
                readings_of data = Some r /\ d = summary r /\ populated r d
          | Return (Some _, Some _) | Return (None, None) => False
          end) as Hget.
  { destruct (getWeather_cases net lat lon) as [[p ->] | [[err ->] | (data & r & Hnet & Hr & ->)]];
      [exact I | exact I |].
    exists data, r. auto using summary_populated. }
  split; [exact Hget|].
  intros ctx dl Hin. unfold getWeatherWithContext in Hin.
  apply in_app_or in Hin.
  destruct (getWeather net lat lon) as [[[d|] [err|]]|p]; try contradiction;
    destruct Hin as [Hin | Hin];
    repeat case_match; simpl in Hin; intuition (simplify_eq; auto).
Qed.

(** ** C9: the request URL *)












(** ** C3: what the formatting steps do to the numbers *)

(** C3 fails as stated: a wind direction of 180.5 is rendered "180 degrees",
    as a wind direction of 180 is, though [%v] would render it "180.5"; a
    cloud coverage of 40.7 is rendered "40 percentage" and a visibility of
    8999 metres "8 KM". *)
Lemma extractWindInfo_drops_fraction :
  extractWindInfo (fixture_with 180.5) = Return ("3.1 meter/sec", "180 degrees") /\
  extractWindInfo (fixture_with 180) = Return ("3.1 meter/sec", "180 degrees") /\
  (180.5 =? 180)%float = false /\
  fmt.v_float64 180.5 = "180.5" /\
  extractCloudCoverage {[ "clouds" := obj [("all", VNum 40.7)] ]} =
    Return "40 percentage" /\
  extractVisibility {[ "visibility" := VNum 8999 ]} = Return "8 KM".
Proof. repeat split; vm_compute; reflexivity. Qed.

Lemma v_int_inj (a b : Z) : fmt.v_int a = fmt.v_int b -> a = b.
Proof. unfold fmt.v_int, strconv.FormatInt. apply pretty_Z_inj. Qed.

Lemma append_inj_suffix (a b c : string) : a ++ c = b ++ c -> a = b.
Proof.
  revert b. induction a as [|x a IH]; intros [|y b] H.
  - reflexivity.
  - apply (f_equal String.length) in H. rewrite app_nil, app_cons in H.
    cbn [String.length] in H. rewrite length_append in H. lia.
  - apply (f_equal String.length) in H. rewrite app_nil, app_cons in H.
    cbn [String.length] in H. rewrite length_append in H. lia.
  - rewrite !app_cons in H. injection H as -> H. rewrite (IH b H). reflexivity.
Qed.

(** C3, amended.  In a summary [getWeather] returns, the weather type is
    [classifyWeather] of the temperature in the document and of nothing
    else, so a document with the same temperature gets the same type.  The
    temperature and the wind speed are rendered by [%v] from the [float64]
    received, and the rendering loses nothing: two [float64] values with
    the same text are the same value, so two summaries with the same
    temperature or wind speed text come from the same number.  The wind
    direction, the cloud coverage and the visibility are altered before
    they are rendered: [int(...)] drops the fraction of a finite value
    (truncation toward zero), and the result is that integer if it fits the
    64-bit [int] and the minimum [int] otherwise, as for NaN and the
    infinities; the visibility is then divided by 1000, truncating again.
    The integer obtained is rendered unaltered: different integers have
    different texts. *)
Theorem getWeather_renders :
  (forall (net : Network) (lat lon : float) (d : WeatherData),
     getWeather net lat lon = Return (Some d, None) ->
     exists (data : gmap string value) (r : readings),
       outcome (net (getWeather_url lat lon)) = BodyDecodes data /\
       readings_of data = Some r /\
       WeatherType d = classifyWeather (temp r) /\
       Temperature d = fmt.v_float64 (temp r) ++ " Celsius" /\
       WindSpeed d = fmt.v_float64 (wind_speed r) ++ " meter/sec" /\
       WindDirection d = fmt.v_int (float64_to_int (wind_deg r)) ++ " degrees" /\
       CloudCoverage d = fmt.v_int (float64_to_int (clouds_all r)) ++ " percentage" /\
       Visibility d =
         fmt.v_int (Z.quot (float64_to_int (visibility_m r)) 1000) ++ " KM" /\
       forall (net' : Network) (lat' lon' : float) (data' : gmap string value)
              (r' : readings),
         outcome (net' (getWeather_url lat' lon')) = BodyDecodes data' ->
         readings_of data' = Some r' ->
         exists d', getWeather net' lat' lon' = Return (Some d', None) /\
           (temp r' = temp r -> WeatherType d' = WeatherType d) /\
           (Temperature d' = Temperature d -> temp r' = temp r) /\
           (WindSpeed d' = WindSpeed d -> wind_speed r' = wind_speed r)) /\
  (forall x y : float, fmt.v_float64 x = fmt.v_float64 y -> x = y) /\
  (forall f : float,
     (forall s m e, Prim2SF f = S754_finite s m e ->
        exists n, integer_part s m e n /\
          (minInt <= n <= maxInt -> float64_to_int f = n) /\
          (~ minInt <= n <= maxInt -> float64_to_int f = minInt)) /\
     (forall s, Prim2SF f = S754_zero s -> float64_to_int f = 0) /\
     (Prim2SF f = S754_nan \/ (exists s, Prim2SF f = S754_infinity s) ->
      float64_to_int f = minInt)) /\
  (forall n : Z,
     Z.abs (Z.quot n 1000) * 1000 <= Z.abs n < Z.abs (Z.quot n 1000) * 1000 + 1000 /\
     0 <= n * Z.quot n 1000) /\
  (forall a b : Z, fmt.v_int a = fmt.v_int b -> a = b) /\
  (fun deg => extractWindInfo (fixture_with deg)) <$>
    [359.9; -180.5; -0.9; 1e19; nan]%float =
    [Return ("3.1 meter/sec", "359 degrees"); Return ("3.1 meter/sec", "-180 degrees");
     Return ("3.1 meter/sec", "0 degrees");
     Return ("3.1 meter/sec", "-9223372036854775808 degrees");
     Return ("3.1 meter/sec", "-9223372036854775808 degrees")] /\
  (fun t => fmt.v_float64 t) <$> [15.3; -0.5; 0; 100; 1e21; 1.5e-7; 0.1]%float =
    ["15.3"; "-0.5"; "0"; "100"; "1e+21"; "1.5e-07"; "0.1"].
Proof.
  split; [|split; [|split; [|split; [|split; [|split]]]]].
  - intros net lat lon d Hget.
    destruct (getWeather_cases net lat lon)
      as [[p Hp] | [[err Herr] | (data & r & Hnet & Hr & Hsum)]];
      rewrite Hget in *; try discriminate.
    injection Hsum as ->.
    exists data, r.
    split; [exact Hnet|]. split; [exact Hr|].
    do 6 (split; [reflexivity|]).
    intros net' lat' lon' data' r' Hnet' Hr'.
    pose proof (getWeather_decoded net' lat' lon' data' Hnet') as H.
    rewrite Hr' in H. exists (summary r'). split; [exact H|].
    cbn [summary WeatherType Temperature WindSpeed].
    split; [intros ->; reflexivity|].
    split; intros Heq; apply append_inj_suffix in Heq; apply v_float64_inj; exact Heq.
  - exact v_float64_inj.
  - intros f. split; [|split].
    + apply float64_to_int_finite.
    + apply float64_to_int_zero.
    + apply float64_to_int_special.
  - intros n. Z.to_euclidean_division_equations. nia.
  - exact v_int_inj.
  - vm_compute. reflexivity.
  - vm_compute. reflexivity.
Qed.

(** C3 amended, at the fixture with a wind direction of 180.5. *)
Lemma getWeather_renders_witness :
  exists (data : gmap string value) (r : readings),
    outcome (provider 0 (fixture_with 180.5) (getWeather_url 0 0)) = BodyDecodes data /\
    readings_of data = Some r /\
    "180 degrees" = fmt.v_int (float64_to_int (wind_deg r)) ++ " degrees".
Proof.
  destruct (proj1 getWeather_renders (provider 0 (fixture_with 180.5)) 0%float 0%float
              {| WeatherDescription := "clear sky";
                 Temperature := "15.3 Celsius";
                 WeatherType := "moderate";
                 Visibility := "8 KM";
                 WindSpeed := "3.1 meter/sec";
                 WindDirection := "180 degrees";
                 CloudCoverage := "40 percentage";
                 Sunrise := time.Unix 1700000000 0;
                 Sunset := time.Unix 1700040000 0 |})
    as (data & r & Hnet & Hr & _ & _ & _ & Hdir & _).
  - vm_compute. reflexivity.
  - exists data, r. split; [exact Hnet|]. split; [exact Hr | exact Hdir].
Defined.

(** ** Further properties of the handler and of [getWeather] *)

Lemma float64_to_int_range (f : float) : minInt <= float64_to_int f <= maxInt.
Proof.
  unfold float64_to_int. destruct (trunc f) as [n|]; [|unfold minInt, maxInt; lia].
  destruct (Z.leb_spec minInt n); simpl; [|unfold minInt, maxInt; lia].
  destruct (Z.leb_spec n maxInt); simpl; unfold minInt, maxInt in *; lia.
Qed.

(** The year of an [int64] second count is between 0 and 9999 exactly from
    the first second of year 0 to the last second of year 9999. *)
Lemma Year_Unix_range (unix : Z) :
  minInt <= unix <= maxInt ->
  0 <= time.Year (time.Unix unix 0) < 10000 <-> rfc3339 unix.
Proof.
  intros Hs. unfold rfc3339, time.Year, time.abs, time.Unix, time.offset.
  cbn [time.sec time.loc]. change (0 / 1000000000) with 0.
  change (time.unixToInternal + time.internalToAbsolute) with 9223372028715321600.
  change time.secondsPerDay with 86400. change time.daysPer400Years with 146097.
  change time.daysPer100Years with 36524. change time.daysPer4Years with 1461.
  change time.absoluteZeroYear with (-292277022399).
  change (2 ^ 64) with 18446744073709551616.
  change minInt with (-9223372036854775808) in Hs.
  change maxInt with 9223372036854775807 in Hs.
  Z.div_mod_to_equations. lia.
Qed.

Lemma marshals_Unix (f : float) :
  time.marshals (time.Unix (float64_to_int f) 0) = true <-> rfc3339 (float64_to_int f).
Proof.
  rewrite <- (Year_Unix_range _ (float64_to_int_range f)). unfold time.marshals.
  rewrite andb_true_iff, Z.leb_le, Z.ltb_lt. reflexivity.
Qed.

Lemma marshals_summary (rd : readings) :
  http.marshals (Some (summary rd)) = true <-> encodable rd.
Proof.
  unfold http.marshals, encodable. cbn [summary Sunrise Sunset].
  rewrite andb_true_iff, !marshals_Unix. reflexivity.
Qed.

(** What the client of a successful request gets: the encoding of the
    summary, or nothing if it cannot be encoded. *)
Lemma Encode_summary (rd : readings) :
  exists body,
    http.Encode (Some (summary rd)) = {| http.StatusCode := 200; http.Body := body |} /\
    (encodable rd -> body = http.JSON (Some (summary rd))) /\
    (~ encodable rd -> body = http.Empty).
Proof.
  unfold http.Encode. pose proof (marshals_summary rd) as H.
  destruct (http.marshals (Some (summary rd))).
  - eexists. split; [reflexivity|]. split; [reflexivity|].
    intros Hn. exfalso. apply Hn, H. reflexivity.
  - eexists. split; [reflexivity|]. split; [|reflexivity].
    intros He. apply H in He. discriminate.
Qed.

(** X1: when both parameters parse and the provider answers before the
    deadline with a document of the expected shape, the request has one run,
    at the time the provider's answer is decoded, and its status is 200.
    The body is the JSON encoding of the summary when sunrise and sunset
    both lie in the years 0 to 9999; otherwise the encoder fails, the
    handler ignores that, and the body is empty. *)
Theorem WeatherHandler_success (net : Network) (r : http.Request) (lat lon : float)
    (data : gmap string value) (rd : readings) :
  strconv.ParseFloat (url.Get (http.Query r) "lat") = (lat, None) ->
  strconv.ParseFloat (url.Get (http.Query r) "lon") = (lon, None) ->
  outcome (net (getWeather_url lat lon)) = BodyDecodes data ->
  readings_of data = Some rd ->
  getWeather_elapsed net lat lon < 5 * time.Second ->
  exists body,
    WeatherHandler net r =
      [Responds (getWeather_elapsed net lat lon)
         {| http.StatusCode := 200; http.Body := body |} None] /\
    (encodable rd -> body = http.JSON (Some (summary rd))) /\
    (~ encodable rd -> body = http.Empty).
Proof.
  intros Hlat Hlon Hnet Hrd Hfast.
  pose proof (getWeather_decoded net lat lon data Hnet) as Hget. rewrite Hrd in Hget.
  destruct (Encode_summary rd) as (body & Henc & Hjson & Hempty).
  exists body. split; [|split; assumption].
  unfold WeatherHandler, getWeatherWithContext. rewrite Hlat, Hlon, Hget.
  change (context.Deadline (context.WithTimeout (5 * time.Second))) with 5000000000.
  change (5 * time.Second) with 5000000000 in Hfast.
  destruct (Z.leb_spec 5000000000 (getWeather_elapsed net lat lon)); [lia|].
  destruct (Z.leb_spec (getWeather_elapsed net lat lon) 5000000000); [|lia].
  cbn [fmap list_fmap app]. rewrite Henc. reflexivity.
Qed.

(** X1, at a document whose sunset is the first second of year 10000,
    answered after 120 ms: status 200 and no body. *)
Lemma WeatherHandler_success_witness :
  WeatherHandler
    (provider 120000000
       (<["sys" := obj [("sunrise", VNum 1700000000); ("sunset", VNum 253402300800)] ]>
          fixture))
    (request "37.7749" "-122.4194") =
    [Responds 120000000 {| http.StatusCode := 200; http.Body := http.Empty |} None].
Proof.
  destruct (WeatherHandler_success
              (provider 120000000
                 (<["sys" := obj [("sunrise", VNum 1700000000);
                                  ("sunset", VNum 253402300800)] ]> fixture))
              (request "37.7749" "-122.4194") 37.7749 (-122.4194)
              (<["sys" := obj [("sunrise", VNum 1700000000);
                               ("sunset", VNum 253402300800)] ]> fixture)
              {| description := "clear sky"; temp := 15.3; visibility_m := 8000;
                 wind_speed := 3.1; wind_deg := 180; clouds_all := 40;
                 sunrise_s := 1700000000; sunset_s := 253402300800 |})
    as (body & Hrun & _ & Hempty).
  - vm_compute. reflexivity.
  - vm_compute. reflexivity.
  - reflexivity.
  - vm_compute. reflexivity.
  - vm_compute. reflexivity.
  - rewrite Hrun, Hempty; [reflexivity|].
    unfold encodable, rfc3339. vm_compute. intros [_ [_ H]]. apply H. reflexivity.
Defined.

(** The fixture, whose instants are in 2023, is answered with its
    encoding. *)
Lemma WeatherHandler_fixture_body :
  WeatherHandler (provider 120000000 fixture) (request "37.7749" "-122.4194") =
    [Responds 120000000
       {| http.StatusCode := 200;
          http.Body := http.JSON (Some (summary
            {| description := "clear sky"; temp := 15.3; visibility_m := 8000;
               wind_speed := 3.1; wind_deg := 180; clouds_all := 40;
               sunrise_s := 1700000000; sunset_s := 1700040000 |})) |} None].
Proof. vm_compute. reflexivity. Qed.

(** Sunrise and sunset given in milliseconds, or beyond [int64], cannot be
    encoded: the client gets status 200 and no body. *)
Lemma WeatherHandler_unencodable :
  (fun sunrise =>
     WeatherHandler
       (provider 120000000
          (<["sys" := obj [("sunrise", VNum sunrise); ("sunset", VNum 1700040000)] ]>
             fixture))
       (request "37.7749" "-122.4194")) <$> [1700000000000; 1e19; -62167219201]%float =
  [[Responds 120000000 {| http.StatusCode := 200; http.Body := http.Empty |} None];
   [Responds 120000000 {| http.StatusCode := 200; http.Body := http.Empty |} None];
   [Responds 120000000 {| http.StatusCode := 200; http.Body := http.Empty |} None]].
Proof. vm_compute. reflexivity. Qed.

(** X2: when both parameters parse and [http.Get] or the decoding of the
    body fails before the deadline, the request has one run: status 500 with
    the fixed message "Failed to fetch weather data"; the cause is not in
    the response. *)
Theorem WeatherHandler_upstream_failure (net : Network) (r : http.Request)
    (lat lon : float) (err : error) :
  strconv.ParseFloat (url.Get (http.Query r) "lat") = (lat, None) ->
  strconv.ParseFloat (url.Get (http.Query r) "lon") = (lon, None) ->
  outcome (net (getWeather_url lat lon)) = GetFails err \/
  outcome (net (getWeather_url lat lon)) = BodyUndecodable err ->
  getWeather_elapsed net lat lon < 5 * time.Second ->
  WeatherHandler net r =
    [Responds (getWeather_elapsed net lat lon)
       {| http.StatusCode := 500;
          http.Body := http.PlainText (fmt.ln "Failed to fetch weather data") |} None].
Proof.
  intros Hlat Hlon Hnet Hfast.
  pose proof (getWeather_failed net lat lon err Hnet) as Hget.
  unfold WeatherHandler, getWeatherWithContext. rewrite Hlat, Hlon, Hget.
  change (context.Deadline (context.WithTimeout (5 * time.Second))) with 5000000000.
  change (5 * time.Second) with 5000000000 in Hfast.
  destruct (Z.leb_spec 5000000000 (getWeather_elapsed net lat lon)); [lia|].
  destruct (Z.leb_spec (getWeather_elapsed net lat lon) 5000000000); [|lia].
  reflexivity.
Qed.

(** X2, at a body cut short, which the decoder rejects after 80 ms. *)
Lemma WeatherHandler_upstream_failure_witness :
  WeatherHandler (broken_provider 80000000 (DecodeError "unexpected EOF"))
    (request "37.7749" "-122.4194") =
    [Responds 80000000
       {| http.StatusCode := 500;
          http.Body := http.PlainText (fmt.ln "Failed to fetch weather data") |} None].
Proof.
  apply (WeatherHandler_upstream_failure
           (broken_provider 80000000 (DecodeError "unexpected EOF"))
           (request "37.7749" "-122.4194") 37.7749 (-122.4194)
           (DecodeError "unexpected EOF")).
  - vm_compute. reflexivity.
  - vm_compute. reflexivity.
  - right. reflexivity.
  - vm_compute. reflexivity.
Defined.

(** X3: on a decoded document [getWeather] returns a summary exactly when
    every field it reads is there with the expected type, and panics
    otherwise; it never returns an error then. *)
Theorem getWeather_shape (net : Network) (lat lon : float) (data : gmap string value) :
  outcome (net (getWeather_url lat lon)) = BodyDecodes data ->
  ((exists d, getWeather net lat lon = Return (Some d, None)) <->
   is_Some (readings_of data)) /\
  ((exists p, getWeather net lat lon = Panic p) <-> readings_of data = None) /\
  (forall w err, getWeather net lat lon <> Return (w, Some err)).
Proof.
  intros Hnet. pose proof (getWeather_decoded net lat lon data Hnet) as H.
  destruct (readings_of data) as [rd|].
  - rewrite H. split; [|split].
    + split; [intros _; eauto | intros _; eauto].
    + split; [intros [p Hp]; discriminate | discriminate].
    + intros w err. discriminate.
  - destruct H as [p ->]. split; [|split].
    + split; [intros [d Hd]; discriminate | intros [x Hx]; discriminate].
    + split; [reflexivity | eauto].
    + intros w err. discriminate.
Qed.

(** X3, at a provider error document ([cod] and [message] only). *)
Lemma getWeather_shape_witness :
  exists p, getWeather
    (provider 0 {[ "cod" := VNum 401; "message" := VStr "Invalid API key" ]}) 0 0 = Panic p.
Proof.
  apply (proj1 (proj2 (getWeather_shape
           (provider 0 {[ "cod" := VNum 401; "message" := VStr "Invalid API key" ]})
           0 0 _ eq_refl))).
  vm_compute. reflexivity.
Defined.

(** X4: every response the handler writes has status 200, 400 or 500. *)
Theorem WeatherHandler_statuses (net : Network) (r : http.Request) (at_ : Z)
    (resp : http.Response) (later : option (Z * panic)) :
  In (Responds at_ resp later) (WeatherHandler net r) ->
  http.StatusCode resp = 200 \/ http.StatusCode resp = 400 \/ http.StatusCode resp = 500.
Proof.
  unfold WeatherHandler.
  destruct (strconv.ParseFloat (url.Get (http.Query r) "lat")) as [lat [e|]].
  { intros [[= <- <- <-] | []]. auto. }
  destruct (strconv.ParseFloat (url.Get (http.Query r) "lon")) as [lon [e|]].
  { intros [[= <- <- <-] | []]. auto. }
  intros Hin. apply in_map_iff in Hin as (dl & Hdl & _).
  destruct dl as [t w [err|] l | t p]; simplify_eq; auto.
Qed.

(** X4, at [GET /weather?lat=abc&lon=5]. *)
Lemma WeatherHandler_statuses_witness :
  http.StatusCode (http.Error "Invalid latitude" http.StatusBadRequest) = 200 \/
  http.StatusCode (http.Error "Invalid latitude" http.StatusBadRequest) = 400 \/
  http.StatusCode (http.Error "Invalid latitude" http.StatusBadRequest) = 500.
Proof.
  apply (WeatherHandler_statuses (provider 0 fixture) (request "abc" "5") 0 _ None).
  vm_compute. left. reflexivity.
Defined.

(** ** More on the handler, the goroutine and the extraction helpers *)

(** X6: every request has a run; it has one, or two when the provider's
    answer is decoded at the very instant of the deadline; and every run
    responds or ends the process no later than 5 seconds after it starts. *)
Theorem WeatherHandler_within_deadline (net : Network) (r : http.Request) :
  (length (WeatherHandler net r) = 1%nat \/
   length (WeatherHandler net r) = 2%nat /\
   exists lat lon,
     strconv.ParseFloat (url.Get (http.Query r) "lat") = (lat, None) /\
     strconv.ParseFloat (url.Get (http.Query r) "lon") = (lon, None) /\
     getWeather_elapsed net lat lon = 5000000000) /\
  forall x : run, In x (WeatherHandler net r) -> finished_at x <= 5000000000.
Proof.
  unfold WeatherHandler.
  destruct (strconv.ParseFloat (url.Get (http.Query r) "lat")) as [lat [e|]].
  { split; [left; reflexivity|]. intros x [<- | []]. simpl. lia. }
  destruct (strconv.ParseFloat (url.Get (http.Query r) "lon")) as [lon [e|]].
  { split; [left; reflexivity|]. intros x [<- | []]. simpl. lia. }
  unfold getWeatherWithContext.
  change (context.Deadline (context.WithTimeout (5 * time.Second))) with 5000000000.
  set (t := getWeather_elapsed net lat lon).
  destruct (Z.leb_spec 5000000000 t) as [Hd | Hd];
    destruct (Z.leb_spec t 5000000000) as [Ht | Ht]; try lia.
  - assert (t = 5000000000) as Heq by lia. split.
    + right. split; [|exists lat, lon; auto].
      destruct (getWeather net lat lon) as [[w [err|]]|p]; reflexivity.
    + intros x Hin.
      destruct (getWeather net lat lon) as [[w [err|]]|p]; simpl in Hin;
        destruct Hin as [<- | [<- | []]]; simpl; lia.
  - split; [left; reflexivity|]. intros x [<- | []]. simpl. lia.
  - split.
    + left. destruct (getWeather net lat lon) as [[w [err|]]|p]; reflexivity.
    + intros x Hin.
      destruct (getWeather net lat lon) as [[w [err|]]|p]; simpl in Hin;
        destruct Hin as [<- | []]; simpl; lia.
Qed.

Lemma getWeather_panics (net : Network) (lat lon : float) (p : panic) :
  getWeather net lat lon = Panic p ->
  exists data, outcome (net (getWeather_url lat lon)) = BodyDecodes data /\
               readings_of data = None.
Proof.
  intros Hp.
  destruct (outcome (net (getWeather_url lat lon))) as [err|err|data] eqn:Hnet.
  - rewrite (getWeather_failed net lat lon err) in Hp by auto. discriminate.
  - rewrite (getWeather_failed net lat lon err) in Hp by auto. discriminate.
  - pose proof (getWeather_decoded net lat lon data Hnet) as H.
    exists data. split; [reflexivity|].
    destruct (readings_of data); [rewrite H in Hp; discriminate | reflexivity].
Qed.

(** X7: a run of a request ends the process exactly when both parameters
    parse and the provider's body decodes to a document that lacks one of
    the fields read, or has it with another type; this holds whether the
    document arrives before or after the deadline. *)
Theorem WeatherHandler_ends_process (net : Network) (r : http.Request) (x : run) :
  In x (WeatherHandler net r) ->
  (ends_process x <->
   exists lat lon data,
     strconv.ParseFloat (url.Get (http.Query r) "lat") = (lat, None) /\
     strconv.ParseFloat (url.Get (http.Query r) "lon") = (lon, None) /\
     outcome (net (getWeather_url lat lon)) = BodyDecodes data /\
     readings_of data = None).
Proof.
  unfold WeatherHandler.
  destruct (strconv.ParseFloat (url.Get (http.Query r) "lat")) as [lat [e|]].
  { intros [<- | []]. simpl. split.
    - intros [? [=]].
    - intros (? & ? & ? & [=] & _). }
  destruct (strconv.ParseFloat (url.Get (http.Query r) "lon")) as [lon [e|]].
  { intros [<- | []]. simpl. split.
    - intros [? [=]].
    - intros (? & ? & ? & _ & [=] & _). }
  intros Hin. apply in_map_iff in Hin as (dl & <- & Hin).
  unfold getWeatherWithContext in Hin. apply in_app_or in Hin.
  destruct (getWeather net lat lon) as [[w err]|p] eqn:Hget.
  - assert (~ exists data, outcome (net (getWeather_url lat lon)) = BodyDecodes data /\
                           readings_of data = None) as Hno.
    { intros (data & Hnet & Hr).
      pose proof (getWeather_decoded net lat lon data Hnet) as H.
      rewrite Hr in H. destruct H as [p Hp]. congruence. }
    assert (~ ends_process
                match dl with
                | Returns t _ (Some _) later =>
                    Responds t (http.Error "Failed to fetch weather data"
                                  http.StatusInternalServerError) later
                | Returns t weatherData None later =>
                    Responds t (http.Encode weatherData) later
                | ProcessExits t p => Exits t p
                end) as Hnot.
    { destruct Hin as [Hin | Hin]; repeat case_match; simpl in Hin;
        intuition (simplify_eq; simpl in *; try (by destruct H1)).
      all: match goal with H : is_Some None |- _ => destruct H; discriminate end. }
    split; [intros H; contradiction|].
    intros (lat' & lon' & data & [= <-] & [= <-] & Hnet & Hr).
    destruct Hno. eauto.
  - destruct (getWeather_panics net lat lon p Hget) as (data & Hnet & Hr).
    split; [intros _; exists lat, lon, data; auto|]. intros _.
    destruct Hin as [Hin | Hin]; repeat case_match; simpl in Hin;
      intuition (simplify_eq; simpl; eauto).
Qed.

(** X7, at the fixture without its [wind] key, answered after 6 seconds:
    the run that responds 500 at the deadline ends the process. *)
Lemma WeatherHandler_ends_process_witness :
  ends_process
    (Responds 5000000000
       (http.Error "Failed to fetch weather data" http.StatusInternalServerError)
       (Some (6000000000, InterfaceConversion KNil KMap))).
Proof.
  apply (WeatherHandler_ends_process
           (provider 6000000000 (delete "wind" fixture))
           (request "37.7749" "-122.4194")
           (Responds 5000000000
              (http.Error "Failed to fetch weather data" http.StatusInternalServerError)
              (Some (6000000000, InterfaceConversion KNil KMap)))).
  - vm_compute. left. reflexivity.
  - exists 37.7749%float, (-122.4194)%float, (delete "wind" fixture).
    repeat split; vm_compute; reflexivity.
Defined.

(** X8: a request calls the provider at most once, at the URL of the two
    parsed coordinates: two providers that agree there give the same runs,
    and when a parameter does not parse the provider is not looked at. *)
Theorem WeatherHandler_one_call (net net' : Network) (r : http.Request) :
  (forall lat lon,
     strconv.ParseFloat (url.Get (http.Query r) "lat") = (lat, None) ->
     strconv.ParseFloat (url.Get (http.Query r) "lon") = (lon, None) ->
     net (getWeather_url lat lon) = net' (getWeather_url lat lon)) ->
  WeatherHandler net r = WeatherHandler net' r.
Proof.
  intros Hagree. unfold WeatherHandler.
  destruct (strconv.ParseFloat (url.Get (http.Query r) "lat")) as [lat [e|]];
    [reflexivity|].
  destruct (strconv.ParseFloat (url.Get (http.Query r) "lon")) as [lon [e|]];
    [reflexivity|].
  unfold getWeatherWithContext, getWeather_elapsed, getWeather.
  rewrite (Hagree lat lon eq_refl eq_refl). reflexivity.
Qed.

(** X8, at a provider that knows the fixture only at the URL requested. *)
Lemma WeatherHandler_one_call_witness :
  WeatherHandler
    (fun u => if String.eqb u (getWeather_url 37.7749 (-122.4194))
              then {| latency := 1; outcome := BodyDecodes fixture |}
              else {| latency := 9; outcome := GetFails (GetError "no such host") |})
    (request "37.7749" "-122.4194") =
  WeatherHandler (provider 1 fixture) (request "37.7749" "-122.4194").
Proof.
  apply WeatherHandler_one_call.
  intros lat lon Hlat Hlon.
  vm_compute in Hlat. vm_compute in Hlon.
  injection Hlat as <-. injection Hlon as <-.
  vm_compute. reflexivity.
Defined.

(** X9: of the [weather] array only the first element is read, whatever
    follows it; an empty array makes [extractWeatherInfo] panic with an index
    out of range, and a missing or null [weather] with a failed conversion,
    in both cases before [main] is looked at. *)
Theorem extractWeatherInfo_first_element (data : gmap string value) :
  (forall (w : value) (rest : list value),
     data !! "weather" = Some (VArr (w :: rest)) ->
     extractWeatherInfo data = extractWeatherInfo (<["weather" := VArr [w]]> data)) /\
  (data !! "weather" = Some (VArr []) ->
   forall main : value,
     extractWeatherInfo (<["main" := main]> data) = Panic (IndexOutOfRange 0 0)) /\
  (data !! "weather" = None \/ data !! "weather" = Some VNil ->
   forall main : value,
     extractWeatherInfo (<["main" := main]> data) =
       Panic (InterfaceConversion KNil KSlice)).
Proof.
  unfold extractWeatherInfo, index. split; [|split].
  - intros w rest Hw.
    rewrite Hw, lookup_insert_eq. rewrite lookup_insert_ne; [reflexivity | discriminate].
  - intros Hw main.
    rewrite (lookup_insert_ne data "main" "weather"), Hw by discriminate. reflexivity.
  - intros [Hw | Hw] main;
      rewrite (lookup_insert_ne data "main" "weather"), Hw by discriminate; reflexivity.
Qed.

(** X9, at a document with two weather conditions. *)
Lemma extractWeatherInfo_first_element_witness :
  extractWeatherInfo
    (<["weather" := VArr [obj [("description", VStr "mist")];
                          obj [("description", VStr "light rain")]]]> fixture) =
  Return ("mist", 15.3%float).
Proof.
  refine (eq_trans (proj1 (extractWeatherInfo_first_element _)
            (obj [("description", VStr "mist")])
            [obj [("description", VStr "light rain")]] _) _).
  - vm_compute. reflexivity.
  - vm_compute. reflexivity.
Defined.

Lemma SFleb_trans (x y z : spec_float) :
  SFleb x y = true -> SFleb y z = true -> SFleb x z = true.
Proof.
  unfold SFleb, SFcompare.
  destruct x as [sx|sx| |sx mx ex], y as [sy|sy| |sy my ey], z as [sz|sz| |sz mz ez];
    try destruct sx; try destruct sy; try destruct sz;
    try discriminate; try reflexivity.
  all: fold (Pos.compare mx my); fold (Pos.compare my mz); fold (Pos.compare mx mz).
  all: destruct (Z.compare_spec ex ey); try discriminate;
       destruct (Z.compare_spec ey ez); try discriminate;
       destruct (Z.compare_spec ex ez); try lia; try reflexivity;
       destruct (Pos.compare_spec mx my); try discriminate;
       destruct (Pos.compare_spec my mz); try discriminate;
       destruct (Pos.compare_spec mx mz); try lia; try reflexivity.
Qed.

Lemma leb_trans (x y z : float) :
  (x <=? y)%float = true -> (y <=? z)%float = true -> (x <=? z)%float = true.
Proof. rewrite !leb_spec. apply SFleb_trans. Qed.

(** X10: the classification is monotone: of two temperatures, the lower
    (by [<=] on [float64]) is never put in a warmer class.  If the higher is
    "cold" so is the lower, and if the lower is "hot" so is the higher. *)
Theorem classifyWeather_monotone (t1 t2 : float) :
  (t1 <=? t2)%float = true ->
  (classifyWeather t2 = "cold" -> classifyWeather t1 = "cold") /\
  (classifyWeather t1 = "hot" -> classifyWeather t2 = "hot") /\
  (classifyWeather t1 = "moderate" -> classifyWeather t2 <> "cold").
Proof.
  intros Hle. unfold classifyWeather.
  destruct (t2 <=? 10)%float eqn:H2c.
  - rewrite (leb_trans t1 t2 10 Hle H2c).
    repeat split; try reflexivity; discriminate.
  - destruct (t2 <=? 25)%float eqn:H2m.
    + rewrite (leb_trans t1 t2 25 Hle H2m).
      destruct (t1 <=? 10)%float; repeat split; try discriminate; try reflexivity.
    + destruct (t1 <=? 10)%float; [repeat split; discriminate|].
      destruct (t1 <=? 25)%float; repeat split; try discriminate; reflexivity.
Qed.

(** X10, at 9.5 and 10 degrees. *)
Lemma classifyWeather_monotone_witness : classifyWeather 9.5 = "cold".
Proof.
  apply (proj1 (classifyWeather_monotone 9.5 10 eq_refl)). reflexivity.
Defined.

(** X11: the coordinates reach the provider only as their six-decimal
    rendering: two requests whose coordinates parse to numbers with the same
    rendering have the same runs. *)
Theorem WeatherHandler_six_decimals_only (net : Network) (r r' : http.Request)
    (lat lon lat' lon' : float) :
  strconv.ParseFloat (url.Get (http.Query r) "lat") = (lat, None) ->
  strconv.ParseFloat (url.Get (http.Query r) "lon") = (lon, None) ->
  strconv.ParseFloat (url.Get (http.Query r') "lat") = (lat', None) ->
  strconv.ParseFloat (url.Get (http.Query r') "lon") = (lon', None) ->
  fmt.f6_float64 lat = fmt.f6_float64 lat' ->
  fmt.f6_float64 lon = fmt.f6_float64 lon' ->
  WeatherHandler net r = WeatherHandler net r'.
Proof.
  intros Hlat Hlon Hlat' Hlon' Hflat Hflon.
  unfold WeatherHandler. rewrite Hlat, Hlon, Hlat', Hlon'.
  unfold getWeatherWithContext, getWeather_elapsed, getWeather, getWeather_url.
  rewrite Hflat, Hflon. reflexivity.
Qed.

(** X11, at two latitudes that differ in the eighth decimal. *)
Lemma WeatherHandler_six_decimals_only_witness :
  WeatherHandler (provider 1 fixture) (request "37.7749" "-122.4194") =
  WeatherHandler (provider 1 fixture) (request "37.77490001" "-122.4194").
Proof.
  apply (WeatherHandler_six_decimals_only _ _ _
           37.7749 (-122.4194) 37.77490001 (-122.4194)).
  all: vm_compute; reflexivity.
Defined.

Lemma index_insert_ne (data : gmap string value) (k key : string) (v : value) :
  k <> key -> index (<[k := v]> data) key = index data key.
Proof. intros Hne. unfold index. rewrite lookup_insert_ne by exact Hne. reflexivity. Qed.

Lemma index_insert_eq (data : gmap string value) (k : string) (v : value) :
  index (<[k := v]> data) k = v.
Proof. unfold index. rewrite lookup_insert_eq. reflexivity. Qed.

(** The five extraction helpers, run as [getWeather] runs them. *)
Lemma getWeather_on (net : Network) (lat lon : float) (data : gmap string value) :
  outcome (net (getWeather_url lat lon)) = BodyDecodes data ->
  getWeather net lat lon = getWeather (provider 0 data) 0 0.
Proof. intros Hnet. unfold getWeather. rewrite Hnet. reflexivity. Qed.

(** X12: [getWeather] ignores what it does not read.  A top-level key
    other than the six it reads, and a field other than those it reads in
    the [main], [wind], [clouds] or [sys] object, can be added or changed
    without changing the result, be it a summary or a panic. *)
Theorem getWeather_ignores_other_fields (net net' : Network) (lat lon : float)
    (data data' : gmap string value) :
  outcome (net (getWeather_url lat lon)) = BodyDecodes data ->
  outcome (net' (getWeather_url lat lon)) = BodyDecodes data' ->
  (exists (k : string) (v : value),
     ~ In k keys_read /\ data' = <[k := v]> data) \/
  (exists (key k : string) (v : value) (m : gmap string value),
     fields_read key <> [] /\ ~ In k (fields_read key) /\
     data !! key = Some (VObj m) /\
     data' = <[key := VObj (<[k := v]> m)]> data) ->
  getWeather net' lat lon = getWeather net lat lon.
Proof.
  intros Hnet Hnet' Hdata.
  rewrite (getWeather_on net lat lon data Hnet), (getWeather_on net' lat lon data' Hnet').
  unfold getWeather, provider, outcome.
  destruct Hdata as [(k & v & Hk & ->) | (key & k & v & m & Hkey & Hk & Hm & ->)].
  - unfold keys_read in Hk. simpl in Hk.
    unfold extractWeatherInfo, extractVisibility, extractWindInfo,
      extractCloudCoverage, extractSunriseSunset.
    rewrite !index_insert_ne by (intros ->; apply Hk; simpl; auto 10). reflexivity.
  - unfold fields_read in Hkey, Hk.
    unfold extractWeatherInfo, extractVisibility, extractWindInfo,
      extractCloudCoverage, extractSunriseSunset.
    assert (index data key = VObj m) as Hidx by (unfold index; rewrite Hm; reflexivity).
    assert (key = "main" \/ key = "wind" \/ key = "clouds" \/ key = "sys") as Hcase.
    { destruct (String.eqb_spec key "main"); [auto|].
      destruct (String.eqb_spec key "wind"); [auto|].
      destruct (String.eqb_spec key "clouds"); [auto|].
      destruct (String.eqb_spec key "sys"); [auto|]. congruence. }
    clear Hkey. destruct Hcase as [-> | [-> | [-> | ->]]].
    all: simpl in Hk.
    all: rewrite ?index_insert_eq, ?index_insert_ne by discriminate.
    all: rewrite ?Hidx; cbn [assert_map mbind exec_bind].
    all: rewrite ?index_insert_ne by (intros ->; apply Hk; simpl; auto 10).
    all: reflexivity.
Qed.

(** X12, at the fixture with a [name] and with a humidity in [main]. *)
Lemma getWeather_ignores_other_fields_witness :
  getWeather (provider 0 (<["name" := VStr "San Francisco"]> fixture)) 0 0 =
    getWeather (provider 0 fixture) 0 0 /\
  getWeather
    (provider 0 (<["main" := VObj (<["humidity" := VNum 81]>
                                     {[ "temp" := VNum 15.3 ]})]> fixture)) 0 0 =
    getWeather (provider 0 fixture) 0 0.
Proof.
  split.
  - apply (getWeather_ignores_other_fields (provider 0 fixture)
             (provider 0 (<["name" := VStr "San Francisco"]> fixture)) 0 0
             fixture (<["name" := VStr "San Francisco"]> fixture) eq_refl eq_refl).
    left. exists "name", (VStr "San Francisco"). split; [|reflexivity].
    vm_compute. intuition discriminate.
  - apply (getWeather_ignores_other_fields (provider 0 fixture)
             (provider 0 (<["main" := VObj (<["humidity" := VNum 81]>
                                              {[ "temp" := VNum 15.3 ]})]> fixture))
             0 0 fixture
             (<["main" := VObj (<["humidity" := VNum 81]> {[ "temp" := VNum 15.3 ]})]>
                fixture) eq_refl eq_refl).
    right. exists "main", "humidity", (VNum 81), {[ "temp" := VNum 15.3 ]}.
    split; [vm_compute; discriminate|].
    split; [vm_compute; intuition discriminate|].
    split; vm_compute; reflexivity.
Defined.

(** X13: a response with status 200 always comes from a complete document:
    both parameters parsed and the provider's document had every field
    read.  Its body is the JSON encoding of the summary of that document
    when sunrise and sunset both lie in the years 0 to 9999, and is empty
    otherwise; it is never the encoding of a nil pointer.  It is written
    when the document is decoded, within the deadline, and no panic
    follows. *)
Theorem WeatherHandler_200_complete (net : Network) (r : http.Request) (t : Z)
    (resp : http.Response) (later : option (Z * panic)) :
  In (Responds t resp later) (WeatherHandler net r) ->
  http.StatusCode resp = 200 ->
  exists lat lon data rd,
    strconv.ParseFloat (url.Get (http.Query r) "lat") = (lat, None) /\
    strconv.ParseFloat (url.Get (http.Query r) "lon") = (lon, None) /\
    outcome (net (getWeather_url lat lon)) = BodyDecodes data /\
    readings_of data = Some rd /\
    (encodable rd -> http.Body resp = http.JSON (Some (summary rd))) /\
    (~ encodable rd -> http.Body resp = http.Empty) /\
    http.Body resp <> http.JSON None /\
    t = getWeather_elapsed net lat lon /\ t <= 5000000000 /\ later = None.
Proof.
  unfold WeatherHandler.
  destruct (strconv.ParseFloat (url.Get (http.Query r) "lat")) as [lat [e|]].
  { intros [[= <- <- <-] | []]. discriminate. }
  destruct (strconv.ParseFloat (url.Get (http.Query r) "lon")) as [lon [e|]].
  { intros [[= <- <- <-] | []]. discriminate. }
  intros Hin Hstatus. apply in_map_iff in Hin as (dl & Hdl & Hin).
  unfold getWeatherWithContext in Hin.
  change (context.Deadline (context.WithTimeout (5 * time.Second)))
    with 5000000000 in Hin.
  apply in_app_or in Hin.
  destruct (getWeather_cases net lat lon)
    as [[p Hp] | [[err Herr] | (data & rd & Hnet & Hrd & Hget)]].
  - rewrite Hp in Hin.
    destruct Hin as [Hin | Hin]; repeat case_match; simpl in Hin;
      intuition (simplify_eq; discriminate).
  - rewrite Herr in Hin.
    destruct Hin as [Hin | Hin]; repeat case_match; simpl in Hin;
      intuition (simplify_eq; discriminate).
  - rewrite Hget in Hin. exists lat, lon, data, rd.
    destruct (Encode_summary rd) as (body & Henc & Hjson & Hempty).
    assert (Hnil : body <> http.JSON None).
    { destruct (marshals_summary rd) as [H1 H2]. unfold http.Encode in Henc.
      destruct (http.marshals (Some (summary rd))); injection Henc as <-; discriminate. }
    destruct Hin as [Hin | Hin];
      destruct (Z.leb_spec 5000000000 (getWeather_elapsed net lat lon));
      destruct (Z.leb_spec (getWeather_elapsed net lat lon) 5000000000);
      simpl in Hin; try contradiction;
      destruct Hin as [<- | []]; simplify_eq; try discriminate;
      rewrite Henc; cbn [http.Body]; repeat split; auto.
Qed.

(** X13, at the fixture answered after 120 ms. *)
Lemma WeatherHandler_200_complete_witness :
  exists lat lon data rd,
    strconv.ParseFloat "37.7749" = (lat, None) /\
    strconv.ParseFloat "-122.4194" = (lon, None) /\
    outcome (provider 120000000 fixture (getWeather_url lat lon)) = BodyDecodes data /\
    readings_of data = Some rd /\
    (encodable rd ->
     http.JSON (Some (summary
       {| description := "clear sky"; temp := 15.3; visibility_m := 8000;
          wind_speed := 3.1; wind_deg := 180; clouds_all := 40;
          sunrise_s := 1700000000; sunset_s := 1700040000 |})) =
       http.JSON (Some (summary rd))).
Proof.
  destruct (WeatherHandler_200_complete (provider 120000000 fixture)
              (request "37.7749" "-122.4194") 120000000
              {| http.StatusCode := 200;
                 http.Body := http.JSON (Some (summary
                   {| description := "clear sky"; temp := 15.3; visibility_m := 8000;
                      wind_speed := 3.1; wind_deg := 180; clouds_all := 40;
                      sunrise_s := 1700000000; sunset_s := 1700040000 |})) |} None)
    as (lat & lon & data & rd & Hlat & Hlon & Hnet & Hrd & Hbody & _).
  - vm_compute. left. reflexivity.
  - reflexivity.
  - exists lat, lon, data, rd. auto.
Defined.

(** X14: a response with status 500 has the fixed text "Failed to fetch
    weather data" as its body, and one of two causes: the deadline passed
    before [getWeather] was done, and the response is written at the 5th
    second; or [http.Get] or the decoding of the body failed within the
    deadline, and no panic follows. *)
Theorem WeatherHandler_500_cause (net : Network) (r : http.Request) (t : Z)
    (resp : http.Response) (later : option (Z * panic)) :
  In (Responds t resp later) (WeatherHandler net r) ->
  http.StatusCode resp = 500 ->
  http.Body resp = http.PlainText (fmt.ln "Failed to fetch weather data") /\
  exists lat lon,
    strconv.ParseFloat (url.Get (http.Query r) "lat") = (lat, None) /\
    strconv.ParseFloat (url.Get (http.Query r) "lon") = (lon, None) /\
    (t = 5000000000 /\ 5000000000 <= getWeather_elapsed net lat lon \/
     t = getWeather_elapsed net lat lon /\ t <= 5000000000 /\ later = None /\
     exists err, outcome (net (getWeather_url lat lon)) = GetFails err \/
                 outcome (net (getWeather_url lat lon)) = BodyUndecodable err).
Proof.
  unfold WeatherHandler.
  destruct (strconv.ParseFloat (url.Get (http.Query r) "lat")) as [lat [e|]].
  { intros [[= <- <- <-] | []]. discriminate. }
  destruct (strconv.ParseFloat (url.Get (http.Query r) "lon")) as [lon [e|]].
  { intros [[= <- <- <-] | []]. discriminate. }
  intros Hin Hstatus. apply in_map_iff in Hin as (dl & Hdl & Hin).
  unfold getWeatherWithContext in Hin.
  change (context.Deadline (context.WithTimeout (5 * time.Second)))
    with 5000000000 in Hin.
  apply in_app_or in Hin.
  assert (forall w err, getWeather net lat lon = Return (w, Some err) ->
            outcome (net (getWeather_url lat lon)) = GetFails err \/
            outcome (net (getWeather_url lat lon)) = BodyUndecodable err) as Hcause.
  { intros w err Hget.
    destruct (outcome (net (getWeather_url lat lon))) as [e1|e1|data] eqn:Hnet.
    - rewrite (getWeather_failed net lat lon e1) in Hget by auto. simplify_eq. auto.
    - rewrite (getWeather_failed net lat lon e1) in Hget by auto. simplify_eq. auto.
    - pose proof (getWeather_decoded net lat lon data Hnet) as H.
      destruct (readings_of data); [rewrite H in Hget; discriminate|].
      destruct H as [p Hp]. rewrite Hp in Hget. discriminate. }
  destruct (getWeather net lat lon) as [[w [err|]]|p] eqn:Hget;
    destruct Hin as [Hin | Hin];
    destruct (Z.leb_spec 5000000000 (getWeather_elapsed net lat lon));
    destruct (Z.leb_spec (getWeather_elapsed net lat lon) 5000000000);
    simpl in Hin; try contradiction;
    destruct Hin as [<- | []]; simplify_eq; try discriminate.
  all: split; [reflexivity|]; exists lat, lon; split; [reflexivity|];
       split; [reflexivity|].
  all: first [ left; split; [reflexivity | lia]
             | right; repeat split; try lia; eauto ].
Qed.

(** X14, at a body the decoder rejects after 80 ms. *)
Lemma WeatherHandler_500_cause_witness :
  http.Body (http.Error "Failed to fetch weather data" http.StatusInternalServerError) =
    http.PlainText (fmt.ln "Failed to fetch weather data").
Proof.
  apply (WeatherHandler_500_cause
           (broken_provider 80000000 (DecodeError "unexpected EOF"))
           (request "37.7749" "-122.4194") 80000000
           (http.Error "Failed to fetch weather data" http.StatusInternalServerError)
           None).
  - vm_compute. left. reflexivity.
  - reflexivity.
Defined.

(** X15: a request is answered 400 exactly when [ParseFloat] rejects its
    [lat] or its [lon]; then 400 is its only run, at once and without a call
    to the provider.  No range is checked: any text [ParseFloat] accepts,
    such as 1000 or NaN, goes on to the provider. *)
Theorem WeatherHandler_400_iff (net : Network) (r : http.Request) :
  ((exists t resp later,
      In (Responds t resp later) (WeatherHandler net r) /\
      http.StatusCode resp = 400) <->
   (strconv.ParseFloat (url.Get (http.Query r) "lat")).2 <> None \/
   (strconv.ParseFloat (url.Get (http.Query r) "lon")).2 <> None) /\
  ((strconv.ParseFloat (url.Get (http.Query r) "lat")).2 <> None \/
   (strconv.ParseFloat (url.Get (http.Query r) "lon")).2 <> None ->
   exists message : string,
     forall net' : Network,
       WeatherHandler net' r =
         [Responds 0 {| http.StatusCode := 400;
                        http.Body := http.PlainText (fmt.ln message) |} None]).
Proof.
  unfold WeatherHandler.
  destruct (strconv.ParseFloat (url.Get (http.Query r) "lat")) as [lat [e|]].
  { split; [split|]; eauto.
    intros _. eexists 0, _, None. split; [left; reflexivity | reflexivity]. }
  destruct (strconv.ParseFloat (url.Get (http.Query r) "lon")) as [lon [e|]].
  { split; [split|]; eauto.
    intros _. eexists 0, _, None. split; [left; reflexivity | reflexivity]. }
  simpl. split; [split|].
  - intros (t & resp & later & Hin & Hstatus).
    apply in_map_iff in Hin as (dl & Hdl & _).
    destruct dl as [t' w [err|] l | t' p]; simplify_eq; discriminate.
  - intros [[] | []]; reflexivity.
  - intros [[] | []]; reflexivity.
Qed.

(** X15, at [GET /weather?lat=1000&lon=abc]. *)
Lemma WeatherHandler_400_iff_witness :
  exists message : string,
    forall net' : Network,
      WeatherHandler net' (request "1000" "abc") =
        [Responds 0 {| http.StatusCode := 400;
                       http.Body := http.PlainText (fmt.ln message) |} None].
Proof.
  apply (proj2 (WeatherHandler_400_iff (provider 0 fixture) (request "1000" "abc"))).
  right. vm_compute. discriminate.
Defined.
